(** * Quadrotor simulation: rotor mixing, rigid-body dynamics and PD control

    A shallow embedding of the two notebooks of the project: the planar
    (2-D) quadrotor model and the full 3-D model with its controller.

    Numbers.  The program computes with IEEE doubles; here every number is a
    real ([R]) and arithmetic is exact.  What floating point adds on top
    (rounding, overflow, [inf] and [nan]) is outside this development, with
    one exception: where numpy would put [inf] or [nan] into an array
    (a division by zero, the square root of a negative number) the model
    stops with the outcome [NonFinite] instead of going on with a made-up
    real value.

    Arrays.  A 1-D [ndarray] is a list of reals, a 2-D one a list of rows.
    Binary operations are defined for operands of equal shape, which is how
    the program uses them; numpy's broadcasting is not modelled. *)

From Stdlib Require Import Reals List Lra Lia Bool.
Import ListNotations.
Open Scope R_scope.

(** ** Outcomes of a Python call *)

Inductive exn : Type :=
| ZeroDivisionError
| LinAlgError
| ValueError
| IndexError.

(** [Ok a]: the call returns [a].  [Raised e]: it raises [e].
    [NonFinite]: numpy has produced [inf] or [nan] (it warns and goes on);
    the run has left the real-number model. *)
Inductive result (A : Type) : Type :=
| Ok (a : A)
| Raised (e : exn)
| NonFinite.

Arguments Ok {A} a.
Arguments Raised {A} e.
Arguments NonFinite {A}.

Definition bind {A B : Type} (c : result A) (k : A -> result B) : result B :=
  match c with
  | Ok a => k a
  | Raised e => Raised e
  | NonFinite => NonFinite
  end.

Declare Scope py_scope.
Delimit Scope py_scope with py.
Notation "x <- c ;; k" := (bind c (fun x => k))
  (at level 61, c at next level, right associativity) : py_scope.
Notation "' pat <- c ;; k" := (bind c (fun x => match x with pat => k end))
  (at level 61, pat pattern, c at next level, right associativity) : py_scope.
Open Scope py_scope.

(** [for i in range(n): body], the body updating one value. *)
Fixpoint for_range {A : Type} (start n : nat) (body : nat -> A -> result A)
  (a : A) : result A :=
  match n with
  | O => Ok a
  | S n' => a' <- body start a ;; for_range (S start) n' body a'
  end.

(** Python floats: [x / y] raises on a zero divisor. *)
Definition py_div (x y : R) : result R :=
  if Req_dec_T y 0 then Raised ZeroDivisionError else Ok (x / y).

Definition Rltb (x y : R) : bool := if Rlt_dec x y then true else false.

(** ** numpy *)

Module Np.

Definition array := list R.
Definition matrix := list (list R).

Fixpoint zip_with {A B C : Type} (f : A -> B -> C) (a : list A) (b : list B)
  : list C :=
  match a, b with
  | x :: a', y :: b' => f x y :: zip_with f a' b'
  | _, _ => []
  end.

(** [np.square(a)], [k * a], [a + b], [a - b] *)
Definition square (a : array) : array := map (fun x => x * x) a.
Definition scale (k : R) (a : array) : array := map (fun x => k * x) a.
Definition add (a b : array) : array := zip_with Rplus a b.
Definition sub (a b : array) : array := zip_with Rminus a b.

(** [a / s] with [s] a scalar: numpy does not raise on [s = 0]. *)
Definition div_scalar (a : array) (s : R) : result array :=
  if Req_dec_T s 0 then NonFinite else Ok (map (fun x => x / s) a).

(** A numpy scalar divided by a Python float follows numpy. *)
Definition div (x s : R) : result R :=
  if Req_dec_T s 0 then NonFinite else Ok (x / s).

(** [np.sqrt(a)]: [nan] on a negative entry. *)
Definition sqrt (a : array) : result array :=
  if existsb (fun x => Rltb x 0) a then NonFinite else Ok (map R_sqrt.sqrt a).

(** [a[i]] and [a[i] = v] *)
Definition getitem {A : Type} (a : list A) (i : nat) : result A :=
  match nth_error a i with
  | Some x => Ok x
  | None => Raised IndexError
  end.

Fixpoint setitem {A : Type} (a : list A) (i : nat) (v : A) : result (list A) :=
  match a, i with
  | [], _ => Raised IndexError
  | _ :: a', O => Ok (v :: a')
  | x :: a', S i' => r <- setitem a' i' v ;; Ok (x :: r)
  end.

(** [a[lo:hi]] *)
Definition slice {A : Type} (lo hi : nat) (a : list A) : list A :=
  firstn (hi - lo) (skipn lo a).

Definition dot (a b : array) : R := fold_right Rplus 0 (zip_with Rmult a b).

(** [A @ v] for a 1-D [v] *)
Definition matvec (A : matrix) (v : array) : array :=
  map (fun row => dot row v) A.

Fixpoint transpose (A : matrix) : matrix :=
  match A with
  | [] => []
  | [row] => map (fun x => [x]) row
  | row :: rest => zip_with cons row (transpose rest)
  end.

(** [A @ B] for 2-D operands *)
Definition matmul (A B : matrix) : matrix :=
  map (fun row => map (fun col => dot row col) (transpose B)) A.

(** [np.cross(a, b)] on 3-vectors, the only shape the program uses *)
Definition cross (a b : array) : result array :=
  match a, b with
  | [a0; a1; a2], [b0; b1; b2] =>
      Ok [a1 * b2 - a2 * b1; a2 * b0 - a0 * b2; a0 * b1 - a1 * b0]
  | _, _ => Raised ValueError
  end.

(** *** [np.linalg.inv]

      A matrix that is not square raises [LinAlgError].  The inverse of a
      square matrix is the transposed cofactor matrix over the determinant,
      and a singular matrix raises [LinAlgError]: in exact arithmetic the
      elimination meets a zero pivot exactly when the determinant is zero.
      In floating point the two part: rounding can leave a tiny pivot in
      place of zero, and numpy then returns a matrix.  They agree on a
      matrix with a zero row, which stays zero through the elimination;
      what is stated about the program's errors is stated for such
      matrices only. *)

Fixpoint remove_nth {A : Type} (n : nat) (l : list A) : list A :=
  match l, n with
  | [], _ => []
  | _ :: l', O => l'
  | x :: l', S n' => x :: remove_nth n' l'
  end.

Definition signed (j : nat) (x : R) : R := if Nat.even j then x else - x.

(** Expansion along the first row; [n] is the number of rows. *)
Fixpoint det_rec (n : nat) (A : matrix) : R :=
  match n, A with
  | S n', row :: rest =>
      fold_right Rplus 0
        (map (fun j => signed j (nth j row 0
                                 * det_rec n' (map (remove_nth j) rest)))
             (seq 0 (length row)))
  | _, _ => 1
  end.

Definition det (A : matrix) : R := det_rec (length A) A.

Definition minor (i j : nat) (A : matrix) : matrix :=
  map (remove_nth j) (remove_nth i A).

Definition cofactor (i j : nat) (A : matrix) : R :=
  signed (i + j) (det (minor i j A)).

(** [a.shape[-2] == a.shape[-1]] *)
Definition is_square (A : matrix) : bool :=
  forallb (fun row => Nat.eqb (length row) (length A)) A.

Definition inv (A : matrix) : result matrix :=
  if negb (is_square A) then Raised LinAlgError
  else
    let d := det A in
    if Req_dec_T d 0 then Raised LinAlgError
    else
      let n := length A in
      Ok (map (fun i => map (fun j => cofactor j i A / d) (seq 0 n)) (seq 0 n)).

End Np.

(** ** sym: rotations stored as a quaternion, in the order x, y, z, w *)

Module Rot3.

Record t : Type := mk { x : R; y : R; z : R; w : R }.

Definition to_storage (q : t) : Np.array := [x q; y q; z q; w q].

Definition from_storage (v : Np.array) : result t :=
  match v with
  | [a; b; c; d] => Ok (mk a b c d)
  | _ => Raised ValueError
  end.

(** [from_yaw_pitch_roll(0, 0, 0)] *)
Definition identity : t := mk 0 0 0 1.

(** [q * v]: the vector [v] taken from the body frame to the world frame,
    by the rotation matrix of the quaternion. *)
Definition mul (q : t) (v : Np.array) : result Np.array :=
  match v with
  | [v0; v1; v2] =>
      Ok [ (1 - 2 * (y q * y q) - 2 * (z q * z q)) * v0
           + (2 * (x q * y q) - 2 * (z q * w q)) * v1
           + (2 * (x q * z q) + 2 * (y q * w q)) * v2;
           (2 * (x q * y q) + 2 * (z q * w q)) * v0
           + (1 - 2 * (x q * x q) - 2 * (z q * z q)) * v1
           + (2 * (y q * z q) - 2 * (x q * w q)) * v2;
           (2 * (x q * z q) - 2 * (y q * w q)) * v0
           + (2 * (y q * z q) + 2 * (x q * w q)) * v1
           + (1 - 2 * (x q * x q) - 2 * (y q * y q)) * v2 ]
  | _ => Raised IndexError
  end.

End Rot3.

(** ** The data exchanged between the components *)

Module QuadrotorState.
Record t : Type := mk {
    position : Np.array;
    orientation : Rot3.t;
    velocity : Np.array;
    angular_velocity : Np.array
  }.
End QuadrotorState.

Module QuadrotorCommands.
Record t : Type := mk { rotor_rates : Np.array }.
End QuadrotorCommands.

Module TrajectoryState.
Record t : Type := mk {
    time : R;
    position : Np.array;
    velocity : Np.array
  }.
End TrajectoryState.

(** What [solve_ivp] returns; the program reads the field [y] only, one row
    per state component and one column per time point. *)
Module OdeResult.
Record t : Type := mk { y : Np.matrix }.

(** [solution['y'][:, -1]] *)
Definition last_column (s : t) : result Np.array :=
  for_range 0 (length (y s))
    (fun i col => row <- Np.getitem (y s) i ;;
                  match rev row with
                  | [] => Raised IndexError
                  | v :: _ => Ok (col ++ [v])
                  end)
    [].
End OdeResult.

(** ** The quaternion rate, common to both notebooks *)

Definition unpack4 (a : Np.array) : result (R * R * R * R) :=
  match a with
  | [a0; a1; a2; a3] => Ok (a0, a1, a2, a3)
  | _ => Raised ValueError
  end.

Definition unpack2 (a : Np.array) : result (R * R) :=
  match a with
  | [a0; a1] => Ok (a0, a1)
  | _ => Raised ValueError
  end.

Definition dRot3 (R : Rot3.t) (omega : Np.array) : result Rot3.t :=
  let quat := Rot3.to_storage R in
  '(q0, q1, q2, q3) <- unpack4 quat ;;
  let G := [[ q3;  q2; - q1; - q0];
            [- q2;  q3;  q0; - q1];
            [ q1; - q0;  q3; - q2]] in
  let quat_dot := map (fun v => v / 2) (Np.matvec (Np.transpose G) omega) in
  Rot3.from_storage quat_dot.

(** The dynamics object.  Its two attributes are set by the base class
    [QuadrotorDynamicsBase], which is not among the sources; [step] reads
    both and replaces [state]. *)
Module QuadrotorDynamicsBase.
Record t : Type := mk { state : QuadrotorState.t; dt : R }.
End QuadrotorDynamicsBase.

(** * The full 3-D model and its controller *)

Module Full.

Record Params : Type := mkParams {
    mass : R;
    inertia : Np.matrix;
    rotor_diameter : R;
    static_thrust_coefficient : R;
    static_torque_coefficient : R;
    arm_length : R;
    g : R;
    rho : R
  }.

Definition rotor_model (self : Params) (static_coefficient : R) : R :=
  rho self * static_coefficient * (rotor_diameter self ^ 4) / (4 * PI ^ 2).

Definition k_thrust (self : Params) : R :=
  rotor_model self (static_thrust_coefficient self).

Definition k_torque (self : Params) : R :=
  rotor_model self (static_torque_coefficient self).

(** [Params(...)]: the constructor the dataclass decorator generates
    stores its arguments; the class has no [__post_init__]. *)
Definition Params_init (mass : R) (inertia : Np.matrix)
  (rotor_diameter static_thrust_coefficient static_torque_coefficient
     arm_length g rho : R) : result Params :=
  Ok (mkParams mass inertia rotor_diameter static_thrust_coefficient
        static_torque_coefficient arm_length g rho).

(** [Params()], with the defaults of the class body. *)
Definition Params_default : Params :=
  {| mass := 1.352;
     inertia := [[9.8e-3; 0; 0]; [0; 10.02e-3; 0]; [0; 0; 18.6e-3]];
     rotor_diameter := 10 * 0.0254;
     static_thrust_coefficient := 0.14553;
     static_torque_coefficient := 0.01047;
     arm_length := 0.3814 / 2.0;
     g := 9.80665;
     rho := 1.225 |}.

Record ControllerParams : Type := mkControllerParams {
    K_p : Np.matrix;
    K_d : Np.matrix;
    rotor_rate_min : R;
    rotor_rate_max : R
  }.

Definition ControllerParams_init (K_p K_d : Np.matrix)
  (rotor_rate_min rotor_rate_max : R) : result ControllerParams :=
  Ok (mkControllerParams K_p K_d rotor_rate_min rotor_rate_max).

(** [np.diag([a, b, c])] *)
Definition diag3 (a b c : R) : Np.matrix := [[a; 0; 0]; [0; b; 0]; [0; 0; c]].

Definition ControllerParams_default : ControllerParams :=
  {| K_p := diag3 0 0 100;
     K_d := diag3 0 0 20;
     rotor_rate_min := 180;
     rotor_rate_max := 600 |}.

(** ** The dynamics *)

Module FullQuadrotorDynamics.
Section WithGlobals.

(** The notebook's global [p]. *)
Variable p : Params.

(** [QuadrotorState.to_state_vector], [QuadrotorState.from_state_vector]
    and scipy's [solve_ivp] are not among the sources. *)
Variable to_state_vector : QuadrotorState.t -> Np.array.
Variable from_state_vector : Np.array -> QuadrotorState.t.
Variable solve_ivp :
  (R -> Np.array -> result Np.array) -> R * R -> Np.array ->
  result OdeResult.t.

(** [__init__] only calls the base class, with no argument;
    [base_init] is what that call does. *)
Definition init (base_init : result QuadrotorDynamicsBase.t)
  : result QuadrotorDynamicsBase.t :=
  self <- base_init ;; Ok self.

Definition rotor_thrust_model (rotor_rates : Np.array) : Np.array :=
  let rates_squared := Np.square rotor_rates in
  let rotor_thrust_array := Np.scale (k_thrust p) rates_squared in
  rotor_thrust_array.

Definition mixing_matrix (L k : R) : Np.matrix :=
  [[1; 1; 1; 1];
   [0; L; 0; -1 * L];
   [-1 * L; 0; L; 0];
   [k; -1 * k; k; -1 * k]].

(** The first half of [step]: from the rotor rates to [(u1, u2)]. *)
Definition actuation (rotor_rates : Np.array) : result (R * Np.matrix) :=
  '(F1, F2, F3, F4) <- unpack4 (rotor_thrust_model rotor_rates) ;;
  let forces := [[F1]; [F2]; [F3]; [F4]] in
  let L := arm_length p in
  k <- py_div (k_thrust p) (k_torque p) ;;
  let u := Np.matmul (mixing_matrix L k) forces in
  row0 <- Np.getitem u 0 ;;
  u1 <- Np.getitem row0 0 ;;
  let u2 := Np.slice 1 4 u in
  Ok (u1, u2).

Definition state_derivative (state : QuadrotorState.t) (u1 : R)
  (u2 : Np.matrix) : result QuadrotorState.t :=
  let RAB := QuadrotorState.orientation state in
  thrust <- Rot3.mul RAB [0; 0; u1] ;;
  accel <- Np.div_scalar (Np.add [0; 0; mass p * g p * -1] thrust) (mass p) ;;
  M <- Np.getitem (Np.transpose u2) 0 ;;
  inertia_inv <- Np.inv (inertia p) ;;
  gyro <- Np.cross (QuadrotorState.angular_velocity state)
            (Np.matvec (inertia p) (QuadrotorState.angular_velocity state)) ;;
  let angular_accel := Np.matvec inertia_inv (Np.sub M gyro) in
  quat_dot <- dRot3 (QuadrotorState.orientation state)
                (QuadrotorState.angular_velocity state) ;;
  Ok {| QuadrotorState.position := QuadrotorState.velocity state;
        QuadrotorState.velocity := accel;
        QuadrotorState.orientation := quat_dot;
        QuadrotorState.angular_velocity := angular_accel |}.

(** [step] returns the new state and leaves it in [self.state]. *)
Definition step (self : QuadrotorDynamicsBase.t) (t : R)
  (input : QuadrotorCommands.t)
  : result (QuadrotorState.t * QuadrotorDynamicsBase.t) :=
  '(u1, u2) <- actuation (QuadrotorCommands.rotor_rates input) ;;
  let state_derivative' := fun (t : R) (state : Np.array) =>
    d <- state_derivative (from_state_vector state) u1 u2 ;;
    Ok (to_state_vector d) in
  let state_vector := to_state_vector (QuadrotorDynamicsBase.state self) in
  solution <- solve_ivp state_derivative'
                (0, QuadrotorDynamicsBase.dt self) state_vector ;;
  last <- OdeResult.last_column solution ;;
  let state' := from_state_vector last in
  Ok (state',
      {| QuadrotorDynamicsBase.state := state';
         QuadrotorDynamicsBase.dt := QuadrotorDynamicsBase.dt self |}).

End WithGlobals.
End FullQuadrotorDynamics.

(** ** The controller *)

Module Controller.
Section WithGlobals.

(** The notebook's globals [p] and [controller_p]. *)
Variable p : Params.
Variable controller_p : ControllerParams.

Definition mixing_matrix (L k : R) : Np.matrix :=
  [[1; 1; 1; 1];
   [0; L; 0; -1 * L];
   [-1 * L; 0; L; 0];
   [k; -1 * k; k; -1 * k]].

(** [for f in range(4): if force_array[f] < 0: force_array[f] = 0] *)
Definition zero_floor (force_array : Np.array) : result Np.array :=
  for_range 0 4
    (fun f a => v <- Np.getitem a f ;;
                if Rlt_dec v 0 then Np.setitem a f 0 else Ok a)
    force_array.

(** The loop limiting the rates to what is physically possible. *)
Definition limit_rates (math_omegas : Np.array) : result Np.array :=
  for_range 0 4
    (fun w a =>
       v <- Np.getitem a w ;;
       a1 <- (if Rlt_dec v (rotor_rate_min controller_p)
              then Np.setitem a w (rotor_rate_min controller_p)
              else Ok a) ;;
       v1 <- Np.getitem a1 w ;;
       if Rgt_dec v1 (rotor_rate_max controller_p)
       then Np.setitem a1 w (rotor_rate_max controller_p)
       else Ok a1)
    math_omegas.

Definition rotor_rates_from_u (u : Np.array) : result Np.array :=
  let L := arm_length p in
  k <- py_div (k_thrust p) (k_torque p) ;;
  mixing_inv <- Np.inv (mixing_matrix L k) ;;
  let force_array := Np.matvec mixing_inv u in
  force_array <- zero_floor force_array ;;
  quotient <- Np.div_scalar force_array (k_thrust p) ;;
  math_omegas <- Np.sqrt quotient ;;
  math_omegas <- limit_rates math_omegas ;;
  let rotor_rates := math_omegas in
  Ok rotor_rates.

Definition commanded_acceleration (trajectory : TrajectoryState.t)
  (state : QuadrotorState.t) : Np.array :=
  let desired_position := TrajectoryState.position trajectory in
  let desired_velocity := TrajectoryState.velocity trajectory in
  let actual_position := QuadrotorState.position state in
  let actual_velocity := QuadrotorState.velocity state in
  Np.add (Np.matvec (K_d controller_p) (Np.sub desired_velocity actual_velocity))
         (Np.matvec (K_p controller_p) (Np.sub desired_position actual_position)).

(** [u_1], the thrust command of [step] *)
Definition thrust_command (trajectory : TrajectoryState.t)
  (state : QuadrotorState.t) : result R :=
  a_z <- Np.getitem (commanded_acceleration trajectory state) 2 ;;
  Ok (mass p * (g p + a_z)).

Definition step (t : R) (trajectory : TrajectoryState.t)
  (state : QuadrotorState.t) : result QuadrotorCommands.t :=
  u_1 <- thrust_command trajectory state ;;
  let u_2 := [0; 0; 0] in
  let u := u_1 :: u_2 in
  rotor_rates <- rotor_rates_from_u u ;;
  Ok (QuadrotorCommands.mk rotor_rates).

End WithGlobals.
End Controller.

(** ** The trajectory *)

Module JumpTrajectory.
Section WithDefaults.

(** The default of [TrajectoryState]'s [velocity] field; the class is
    not among the sources. *)
Variable velocity_default : Np.array.

Definition eval (t : R) : TrajectoryState.t :=
  let altitude := if Rlt_dec t 1.0 then 0 else 1.0 in
  let position := [0; 0; altitude] in
  {| TrajectoryState.time := t;
     TrajectoryState.position := position;
     TrajectoryState.velocity := velocity_default |}.

End WithDefaults.
End JumpTrajectory.

End Full.

(** * The planar (2-D) model *)

Module Planar.

Record Params : Type := mkParams {
    mass : R;
    inertia : R;
    rotor_diameter : R;
    static_thrust_coefficient : R;
    static_torque_coefficient : R;
    arm_length : R;
    g : R;
    rho : R
  }.

Definition rotor_model (self : Params) (static_coefficient : R) : R :=
  rho self * static_coefficient * (rotor_diameter self ^ 4) / (4 * PI ^ 2).

Definition k_thrust (self : Params) : R :=
  rotor_model self (static_thrust_coefficient self).

Definition k_torque (self : Params) : R :=
  rotor_model self (static_torque_coefficient self).

Definition Params_default : Params :=
  {| mass := 1.352;
     inertia := 9.8e-2;
     rotor_diameter := 10 * 0.0254;
     static_thrust_coefficient := 0.14553;
     static_torque_coefficient := 0.01047;
     arm_length := 0.3814 / 2.0;
     g := 9.80665;
     rho := 1.225 |}.

Module PlanarQuadrotorDynamics.
Section WithGlobals.

Variable p : Params.

(** Not among the sources: the state-vector conversions of
    [QuadrotorState], scipy's [solve_ivp] and sym's
    [Rot3.to_yaw_pitch_roll]. *)
Variable to_state_vector : QuadrotorState.t -> Np.array.
Variable from_state_vector : Np.array -> QuadrotorState.t.
Variable solve_ivp :
  (R -> Np.array -> result Np.array) -> R * R -> Np.array ->
  result OdeResult.t.
Variable to_yaw_pitch_roll : Rot3.t -> Np.array.

Definition rotor_thrust_model (rotor_rates : Np.array) : Np.array :=
  let rates_squared := Np.square rotor_rates in
  let rotor_thrust_array := Np.scale (k_thrust p) rates_squared in
  rotor_thrust_array.

(** The first half of [step]: from the rotor rates to [(u1, u2)]. *)
Definition actuation (rotor_rates : Np.array) : result (R * R) :=
  '(F1, F2) <- unpack2 (rotor_thrust_model (Np.slice 0 2 rotor_rates)) ;;
  let u1 := F1 + F2 in
  let u2 := (F1 - F2) * (arm_length p / 2) in
  Ok (u1, u2).

Definition state_derivative (state : QuadrotorState.t) (u1 u2 : R)
  : result QuadrotorState.t :=
  phi <- Np.getitem (to_yaw_pitch_roll (QuadrotorState.orientation state)) 1 ;;
  a_x <- Np.div (u1 * -1 * sin phi) (mass p) ;;
  a_z <- Np.div (u1 * cos phi) (mass p) ;;
  let accel := [a_x; 0; (-1 * g p) + a_z] in
  alpha <- Np.div u2 (inertia p) ;;
  let angular_accel := [0; alpha; 0] in
  quat_dot <- dRot3 (QuadrotorState.orientation state)
                (QuadrotorState.angular_velocity state) ;;
  Ok {| QuadrotorState.position := QuadrotorState.velocity state;
        QuadrotorState.velocity := accel;
        QuadrotorState.orientation := quat_dot;
        QuadrotorState.angular_velocity := angular_accel |}.

Definition step (self : QuadrotorDynamicsBase.t) (t : R)
  (input : QuadrotorCommands.t)
  : result (QuadrotorState.t * QuadrotorDynamicsBase.t) :=
  '(u1, u2) <- actuation (QuadrotorCommands.rotor_rates input) ;;
  let state_derivative' := fun (t : R) (state : Np.array) =>
    d <- state_derivative (from_state_vector state) u1 u2 ;;
    Ok (to_state_vector d) in
  let state_vector := to_state_vector (QuadrotorDynamicsBase.state self) in
  solution <- solve_ivp state_derivative'
                (0, QuadrotorDynamicsBase.dt self) state_vector ;;
  last <- OdeResult.last_column solution ;;
  let state' := from_state_vector last in
  Ok (state',
      {| QuadrotorDynamicsBase.state := state';
         QuadrotorDynamicsBase.dt := QuadrotorDynamicsBase.dt self |}).

End WithGlobals.
End PlanarQuadrotorDynamics.

(** The trajectory and the controller of the planar notebook: both ignore
    their arguments. *)
Module EmptyTrajectory.
Section WithDefaults.

(** The default of [TrajectoryState]'s [velocity] field; the class is
    not among the sources. *)
Variable velocity_default : Np.array.

Definition eval {A : Type} (args : A) : TrajectoryState.t :=
  {| TrajectoryState.time := 0;
     TrajectoryState.position := [0; 0; 0];
     TrajectoryState.velocity := velocity_default |}.

End WithDefaults.
End EmptyTrajectory.

Module EmptyController.

Definition step {A : Type} (args : A) : QuadrotorCommands.t :=
  QuadrotorCommands.mk [0; 0; 0; 0].

End EmptyController.

End Planar.

(** * What the spec says, in its own words *)

Module Spec.

(** Clamp to [[lo, hi]]. *)
Definition clamp (lo hi x : R) : R := Rmin (Rmax x lo) hi.

(** Rate recovery: [sqrt(max(force, 0) / k_thrust)], then clamp. *)
Definition rate_of_force (k_thrust lo hi force : R) : R :=
  clamp lo hi (sqrt (Rmax force 0 / k_thrust)).

(** The rows of the mixing map, on the four thrusts. *)
Definition mix (L k F1 F2 F3 F4 : R) : R * Np.matrix :=
  (F1 + F2 + F3 + F4,
   [[L * (F2 - F4)]; [L * (F3 - F1)]; [k * (F1 - F2 + F3 - F4)]]).

(** The vector [[u1, u2x, u2y, u2z]] of a pair [(u1, u2)]. *)
Definition u_vector (u : R * Np.matrix) : Np.array := fst u :: concat (snd u).

(** The rotation matrix of a quaternion, body to world. *)
Definition rotation_matrix (q : Rot3.t) : Np.matrix :=
  let '(x, y, z, w) := (Rot3.x q, Rot3.y q, Rot3.z q, Rot3.w q) in
  [[1 - 2 * (y * y) - 2 * (z * z); 2 * (x * y) - 2 * (z * w); 2 * (x * z) + 2 * (y * w)];
   [2 * (x * y) + 2 * (z * w); 1 - 2 * (x * x) - 2 * (z * z); 2 * (y * z) - 2 * (x * w)];
   [2 * (x * z) - 2 * (y * w); 2 * (y * z) + 2 * (x * w); 1 - 2 * (x * x) - 2 * (y * y)]].

Definition cross3 (a b : Np.array) : Np.array :=
  [nth 1 a 0 * nth 2 b 0 - nth 2 a 0 * nth 1 b 0;
   nth 2 a 0 * nth 0 b 0 - nth 0 a 0 * nth 2 b 0;
   nth 0 a 0 * nth 1 b 0 - nth 1 a 0 * nth 0 b 0].

(** [d(velocity)/dt = (gravity_vector + orientation.rotate([0,0,u1])) / mass] *)
Definition velocity_rate (mass g : R) (q : Rot3.t) (u1 : R) : Np.array :=
  let gravity_vector := [0; 0; - (mass * g)] in
  map (fun a => a / mass)
      (Np.add gravity_vector (Np.matvec (rotation_matrix q) [0; 0; u1])).

(** [d(angular_velocity)/dt = I^-1 (u2 - omega x (I omega))] *)
Definition angular_velocity_rate (I_inv I : Np.matrix) (u2 omega : Np.array)
  : Np.array :=
  Np.matvec I_inv (Np.sub u2 (cross3 omega (Np.matvec I omega))).

(** [q_dot = 1/2 Omega(q) omega], on the stored components x, y, z, w *)
Definition quaternion_rate (q : Rot3.t) (w0 w1 w2 : R) : Rot3.t :=
  Rot3.mk ((Rot3.w q * w0 - Rot3.z q * w1 + Rot3.y q * w2) / 2)
          ((Rot3.z q * w0 + Rot3.w q * w1 - Rot3.x q * w2) / 2)
          ((- Rot3.y q * w0 + Rot3.x q * w1 + Rot3.w q * w2) / 2)
          ((- Rot3.x q * w0 - Rot3.y q * w1 - Rot3.z q * w2) / 2).

Definition identity (n : nat) : Np.matrix :=
  map (fun i => map (fun j => if Nat.eqb i j then 1 else 0) (seq 0 n)) (seq 0 n).

(** What the spec calls an invalid configuration. *)
Definition invalid_configuration (p : Full.Params) : Prop :=
  Full.mass p <= 0 \/ Np.det (Full.inertia p) = 0
  \/ Full.arm_length p = 0 \/ Full.static_torque_coefficient p = 0.

End Spec.


(** * Auxiliary definitions *)

(** The inverse of the mixing matrix in closed form. *)
Definition mixing_inverse (L k : R) : Np.matrix :=
  [[1 / 4; 0; - 1 / (2 * L); 1 / (4 * k)];
   [1 / 4; 1 / (2 * L); 0; - 1 / (4 * k)];
   [1 / 4; 0; 1 / (2 * L); 1 / (4 * k)];
   [1 / 4; - 1 / (2 * L); 0; - 1 / (4 * k)]].

Definition is_3x3 (A : Np.matrix) : Prop :=
  exists a b c d e f g h i, A = [[a; b; c]; [d; e; f]; [g; h; i]].

(** The default configuration with four of its fields replaced. *)
Definition Params_with (mass : R) (inertia : Np.matrix)
  (static_torque_coefficient arm_length : R) : Full.Params :=
  Full.mkParams mass inertia (10 * 0.0254) 0.14553 static_torque_coefficient
    arm_length 9.80665 1.225.

Definition inertia_default : Np.matrix :=
  [[9.8e-3; 0; 0]; [0; 10.02e-3; 0]; [0; 0; 18.6e-3]].

Definition inertia_zero : Np.matrix := [[0; 0; 0]; [0; 0; 0]; [0; 0; 0]].

(** A configuration with every defect the spec lists: negative mass,
    singular inertia tensor, zero torque coefficient, zero arm length. *)
Definition Params_invalid : Full.Params := Params_with (-1) inertia_zero 0 0.

(** The default configuration with one defect each. *)
Definition Params_no_torque : Full.Params :=
  Params_with 1.352 inertia_default 0 (0.3814 / 2.0).

Definition Params_no_arm : Full.Params :=
  Params_with 1.352 inertia_default 0.01047 0.

Definition Params_no_inertia : Full.Params :=
  Params_with 1.352 inertia_zero 0.01047 (0.3814 / 2.0).

Definition Params_massless : Full.Params :=
  Params_with 0 inertia_default 0.01047 (0.3814 / 2.0).

Definition Params_negative_mass : Full.Params :=
  Params_with (-1) inertia_default 0.01047 (0.3814 / 2.0).

(** The vehicle at rest at the origin, level. *)
Definition state_at_rest : QuadrotorState.t :=
  QuadrotorState.mk [0; 0; 0] Rot3.identity [0; 0; 0] [0; 0; 0].

(** A concrete stand-in for the parts that are not among the sources, used
    where an example needs the functions to be given: the state vector
    lists position, orientation, velocity and angular velocity, and the
    integrator takes one explicit Euler step over the interval. *)
Module StandIn.

Definition to_state_vector (s : QuadrotorState.t) : Np.array :=
  QuadrotorState.position s ++ Rot3.to_storage (QuadrotorState.orientation s)
  ++ QuadrotorState.velocity s ++ QuadrotorState.angular_velocity s.

Definition from_state_vector (v : Np.array) : QuadrotorState.t :=
  QuadrotorState.mk (Np.slice 0 3 v)
    (Rot3.mk (nth 3 v 0) (nth 4 v 0) (nth 5 v 0) (nth 6 v 0))
    (Np.slice 7 10 v) (Np.slice 10 13 v).

Definition euler_ivp (f : R -> Np.array -> result Np.array) (t_span : R * R)
  (y0 : Np.array) : result OdeResult.t :=
  d <- f (fst t_span) y0 ;;
  Ok (OdeResult.mk
        (Np.zip_with (fun y y' => [y; y + (snd t_span - fst t_span) * y']) y0 d)).

End StandIn.

(** The hover of the default vehicle: the rotor rate at which four rotors
    carry the weight, the commands holding it, and the reference at the
    origin. *)
Definition hover_rate : R :=
  sqrt (Full.mass Full.Params_default * Full.g Full.Params_default / 4
        / Full.k_thrust Full.Params_default).

Definition hover_commands : QuadrotorCommands.t :=
  QuadrotorCommands.mk [hover_rate; hover_rate; hover_rate; hover_rate].

Definition origin_reference (t : R) : TrajectoryState.t :=
  TrajectoryState.mk t [0; 0; 0] [0; 0; 0].

(** Further configurations for the examples: rate bounds given in the wrong
    order, a rotor without thrust, and a [to_yaw_pitch_roll] that reports a
    level vehicle. *)
Definition ControllerParams_inverted : Full.ControllerParams :=
  Full.mkControllerParams (Full.diag3 0 0 100) (Full.diag3 0 0 20) 600 180.

Definition Params_no_thrust : Full.Params :=
  Full.mkParams 1.352 inertia_default (10 * 0.0254) 0 0.01047 (0.3814 / 2.0)
    9.80665 1.225.

Definition level_yaw_pitch_roll (q : Rot3.t) : Np.array := [0; 0; 0].


(** * Lemmas on the numpy operations *)

Ltac list_eq :=
  repeat match goal with
         | |- _ :: _ = _ :: _ => apply f_equal2
         | |- [] = [] => reflexivity
         end.

Ltac expand_det :=
  cbn [length Np.det Np.det_rec Np.cofactor Np.minor map seq fold_right nth
       Np.remove_nth Np.signed Nat.even Nat.add].

Lemma py_div_ok (x y : R) : y <> 0 -> py_div x y = Ok (x / y).
Proof.
  intros H. unfold py_div.
  destruct (Req_dec_T y 0); [contradiction|reflexivity].
Qed.

Lemma py_div_zero (x : R) : py_div x 0 = Raised ZeroDivisionError.
Proof.
  unfold py_div. destruct (Req_dec_T 0 0); [reflexivity|contradiction].
Qed.

Lemma div_scalar_ok (a : Np.array) (s : R) :
  s <> 0 -> Np.div_scalar a s = Ok (map (fun x => x / s) a).
Proof.
  intros H. unfold Np.div_scalar.
  destruct (Req_dec_T s 0); [contradiction|reflexivity].
Qed.

Lemma div_scalar_zero (a : Np.array) : Np.div_scalar a 0 = NonFinite.
Proof.
  unfold Np.div_scalar. destruct (Req_dec_T 0 0); [reflexivity|contradiction].
Qed.

Lemma np_sqrt_nonneg (a : Np.array) :
  Forall (fun x => 0 <= x) a -> Np.sqrt a = Ok (map sqrt a).
Proof.
  intros H. unfold Np.sqrt.
  replace (existsb (fun x => Rltb x 0) a) with false; [reflexivity|].
  symmetry. induction H as [|x a Hx _ IH]; cbn; [reflexivity|].
  rewrite IH. unfold Rltb. destruct (Rlt_dec x 0); [lra|reflexivity].
Qed.

Lemma getitem_middle {A : Type} (pre : list A) (x : A) (post : list A) :
  Np.getitem (pre ++ x :: post) (length pre) = Ok x.
Proof.
  unfold Np.getitem. rewrite nth_error_app2 by lia.
  rewrite Nat.sub_diag. reflexivity.
Qed.

Lemma setitem_middle {A : Type} (pre : list A) (x : A) (post : list A) (v : A) :
  Np.setitem (pre ++ x :: post) (length pre) v = Ok (pre ++ v :: post).
Proof.
  induction pre as [|a pre IH]; cbn; [reflexivity|].
  rewrite IH. reflexivity.
Qed.

(** A loop over the indices whose body rewrites the entry at its index by
    [f] maps [f] over the array. *)
Lemma for_range_map (f : R -> R) (body : nat -> Np.array -> result Np.array) :
  (forall pre x post,
      body (length pre) (pre ++ x :: post) = Ok (pre ++ f x :: post)) ->
  forall post pre,
    for_range (length pre) (length post) body (pre ++ post)
    = Ok (pre ++ map f post).
Proof.
  intros Hbody. induction post as [|x post IH]; intros pre; cbn.
  - reflexivity.
  - rewrite Hbody. cbn.
    replace (S (length pre)) with (length (pre ++ [f x]))
      by (rewrite length_app; cbn; lia).
    replace (pre ++ f x :: post) with ((pre ++ [f x]) ++ post)
      by (rewrite <- app_assoc; reflexivity).
    rewrite IH. rewrite <- app_assoc. reflexivity.
Qed.

Lemma sub_self (v : Np.array) : Np.sub v v = map (fun _ => 0) v.
Proof.
  unfold Np.sub. induction v as [|x v IH]; cbn; [reflexivity|].
  rewrite IH. f_equal. ring.
Qed.

Lemma dot_zeros (row v : Np.array) : Np.dot row (map (fun _ => 0) v) = 0.
Proof.
  unfold Np.dot. revert v.
  induction row as [|a row IH]; intros [|x v]; cbn; try reflexivity.
  rewrite IH. ring.
Qed.

Lemma matvec_zeros (K : Np.matrix) (v : Np.array) :
  Np.matvec K (map (fun _ => 0) v) = map (fun _ => 0) K.
Proof.
  unfold Np.matvec. apply map_ext. intros row. apply dot_zeros.
Qed.

Lemma is_3x3_square (A : Np.matrix) : is_3x3 A -> Np.is_square A = true.
Proof. intros (a & b & c & d & e & f & g & h & i & ->). reflexivity. Qed.

Lemma inv_square (A : Np.matrix) :
  Np.is_square A = true ->
  Np.inv A
  = if Req_dec_T (Np.det A) 0 then Raised LinAlgError
    else Ok (map (fun i => map (fun j => Np.cofactor j i A / Np.det A)
                               (seq 0 (length A)))
                 (seq 0 (length A))).
Proof. intros H. unfold Np.inv. rewrite H. reflexivity. Qed.

Lemma inv_not_square (A : Np.matrix) :
  Np.is_square A = false -> Np.inv A = Raised LinAlgError.
Proof. intros H. unfold Np.inv. rewrite H. reflexivity. Qed.

Lemma inv_ok (A : Np.matrix) :
  Np.is_square A = true -> Np.det A <> 0 -> exists B, Np.inv A = Ok B.
Proof.
  intros Hsq H. rewrite inv_square by assumption.
  destruct (Req_dec_T (Np.det A) 0); [contradiction|].
  eexists; reflexivity.
Qed.

Lemma inv_singular (A : Np.matrix) :
  Np.det A = 0 -> Np.inv A = Raised LinAlgError.
Proof.
  intros H. destruct (Np.is_square A) eqn:Hsq.
  - rewrite inv_square by assumption.
    destruct (Req_dec_T (Np.det A) 0); [reflexivity|contradiction].
  - apply inv_not_square. assumption.
Qed.

(** [Np.inv] does return an inverse, on the two sizes the program uses. *)
Lemma inv3_left (A B : Np.matrix) :
  is_3x3 A -> Np.inv A = Ok B -> Np.matmul B A = Spec.identity 3.
Proof.
  intros (a & b & c & d & e & f & g & h & i & ->).
  rewrite inv_square by reflexivity.
  destruct (Req_dec_T _ 0) as [E|E]; [discriminate|].
  intros H. injection H as <-.
  revert E. unfold Np.matmul, Np.dot, Spec.identity. expand_det.
  cbn [Np.transpose Np.zip_with map fold_right seq Nat.eqb].
  intros E. list_eq; field; intro X; apply E; (etransitivity; [|exact X]); ring.
Qed.

Lemma inv4_left (a1 a2 a3 a4 b1 b2 b3 b4 c1 c2 c3 c4 d1 d2 d3 d4 : R)
  (B : Np.matrix) :
  let A := [[a1; a2; a3; a4]; [b1; b2; b3; b4];
            [c1; c2; c3; c4]; [d1; d2; d3; d4]] in
  Np.inv A = Ok B -> Np.matmul B A = Spec.identity 4.
Proof.
  intros A. subst A.
  rewrite inv_square by reflexivity.
  destruct (Req_dec_T _ 0) as [E|E]; [discriminate|].
  intros H. injection H as <-.
  revert E. unfold Np.matmul, Np.dot, Spec.identity. expand_det.
  cbn [Np.transpose Np.zip_with map fold_right seq Nat.eqb].
  intros E. list_eq; field; intro X; apply E; (etransitivity; [|exact X]); ring.
Qed.

(** * Lemmas on the parameters *)

Lemma rotor_model_pos (p : Full.Params) (c : R) :
  0 < Full.rho p -> 0 < c -> 0 < Full.rotor_diameter p ->
  0 < Full.rotor_model p c.
Proof.
  intros Hr Hc Hd. unfold Full.rotor_model.
  apply Rdiv_lt_0_compat.
  - apply Rmult_lt_0_compat; [apply Rmult_lt_0_compat; assumption|].
    apply pow_lt; assumption.
  - pose proof PI_RGT_0. apply Rmult_lt_0_compat; [lra|]. apply pow_lt; lra.
Qed.

Lemma rotor_model_zero_coefficient (p : Full.Params) : Full.rotor_model p 0 = 0.
Proof. unfold Full.rotor_model, Rdiv. ring. Qed.

Lemma k_thrust_default_pos : 0 < Full.k_thrust Full.Params_default.
Proof. apply rotor_model_pos; cbn; lra. Qed.

Lemma k_torque_default_pos : 0 < Full.k_torque Full.Params_default.
Proof. apply rotor_model_pos; cbn; lra. Qed.

Lemma mixing_ratio_nonzero (p : Full.Params) :
  0 < Full.k_thrust p -> Full.k_torque p <> 0 ->
  Full.k_thrust p / Full.k_torque p <> 0.
Proof.
  intros Hkt Hkq. unfold Rdiv.
  apply Rmult_integral_contrapositive_currified; [lra|].
  apply Rinv_neq_0_compat; assumption.
Qed.

(** * Lemmas on rotations *)

Lemma rot3_mul_matrix (q : Rot3.t) (v0 v1 v2 : R) :
  Rot3.mul q [v0; v1; v2] = Ok (Np.matvec (Spec.rotation_matrix q) [v0; v1; v2]).
Proof.
  unfold Rot3.mul, Spec.rotation_matrix, Np.matvec, Np.dot.
  cbn [map Np.zip_with fold_right]. f_equal. list_eq; ring.
Qed.

(** The quaternion rate is [1/2 Omega(q) omega] and [dRot3] always returns. *)
Lemma dRot3_ok (q : Rot3.t) (w0 w1 w2 : R) :
  dRot3 q [w0; w1; w2] = Ok (Spec.quaternion_rate q w0 w1 w2).
Proof.
  unfold dRot3, Rot3.to_storage, Np.matvec, Np.dot, Spec.quaternion_rate.
  cbn [unpack4 bind Np.transpose Np.zip_with map fold_right Rot3.from_storage].
  f_equal. f_equal; field.
Qed.

(** The rate is orthogonal to the quaternion: along the exact flow of the
    kinematic equation the norm does not change.  What an integrator makes
    of it over a step of finite length is another matter. *)
Lemma dRot3_tangent (q : Rot3.t) (w0 w1 w2 : R) (quat_dot : Rot3.t) :
  dRot3 q [w0; w1; w2] = Ok quat_dot ->
  Np.dot (Rot3.to_storage q) (Rot3.to_storage quat_dot) = 0.
Proof.
  rewrite dRot3_ok. intros H. injection H as <-.
  unfold Np.dot, Rot3.to_storage. cbn. field.
Qed.

(** * Lemmas on the mixing matrix *)

Lemma mixing_matrices_agree (L k : R) :
  Full.FullQuadrotorDynamics.mixing_matrix L k = Full.Controller.mixing_matrix L k.
Proof. reflexivity. Qed.

Lemma det_mixing_matrix (L k : R) :
  Np.det (Full.Controller.mixing_matrix L k) = -8 * L * L * k.
Proof. unfold Np.det, Full.Controller.mixing_matrix. expand_det. ring. Qed.

Lemma inv_mixing_matrix (L k : R) :
  L <> 0 -> k <> 0 ->
  Np.inv (Full.Controller.mixing_matrix L k) = Ok (mixing_inverse L k).
Proof.
  intros HL Hk. rewrite inv_square by reflexivity.
  rewrite det_mixing_matrix.
  destruct (Req_dec_T (-8 * L * L * k) 0) as [E|E].
  - exfalso. assert (H : L * L * k = 0) by lra.
    apply Rmult_integral in H. destruct H as [H|H]; [|contradiction].
    apply Rmult_integral in H. tauto.
  - f_equal. unfold Full.Controller.mixing_matrix, mixing_inverse.
    unfold Np.cofactor, Np.minor, Np.det. expand_det.
    list_eq; field; auto.
Qed.

Lemma inv_mixing_singular_arm (k : R) :
  Np.inv (Full.Controller.mixing_matrix 0 k) = Raised LinAlgError.
Proof. apply inv_singular. rewrite det_mixing_matrix. ring. Qed.

Lemma unmix_mix (L k F1 F2 F3 F4 : R) :
  L <> 0 -> k <> 0 ->
  Np.matvec (mixing_inverse L k) (Spec.u_vector (Spec.mix L k F1 F2 F3 F4))
  = [F1; F2; F3; F4].
Proof.
  intros HL Hk.
  unfold Np.matvec, mixing_inverse, Spec.u_vector, Spec.mix, Np.dot.
  cbn [fst snd concat app map Np.zip_with fold_right].
  list_eq; field; auto.
Qed.

(** The first half of the dynamics step, in closed form. *)
Lemma actuation_value (p : Full.Params) (r1 r2 r3 r4 : R) :
  Full.k_torque p <> 0 ->
  Full.FullQuadrotorDynamics.actuation p [r1; r2; r3; r4]
  = Ok (Spec.mix (Full.arm_length p) (Full.k_thrust p / Full.k_torque p)
          (Full.k_thrust p * (r1 * r1)) (Full.k_thrust p * (r2 * r2))
          (Full.k_thrust p * (r3 * r3)) (Full.k_thrust p * (r4 * r4))).
Proof.
  intros Hk. unfold Full.FullQuadrotorDynamics.actuation.
  cbn [Full.FullQuadrotorDynamics.rotor_thrust_model Np.square Np.scale map
       unpack4 bind].
  rewrite py_div_ok by assumption. cbn [bind].
  unfold Full.FullQuadrotorDynamics.mixing_matrix, Np.matmul, Np.dot, Spec.mix.
  cbn [Np.transpose map Np.zip_with fold_right Np.getitem nth_error bind
       Np.slice skipn firstn Nat.sub].
  f_equal. f_equal; [ring|]. list_eq; ring.
Qed.

(** * Lemmas on the controller's loops *)

Lemma zero_floor_spec (a : Np.array) :
  length a = 4%nat ->
  Full.Controller.zero_floor a = Ok (map (fun f => Rmax f 0) a).
Proof.
  intros Hlen. unfold Full.Controller.zero_floor. rewrite <- Hlen.
  apply (for_range_map (fun f => Rmax f 0) _) with (pre := []).
  intros pre x post. rewrite getitem_middle. cbn [bind].
  destruct (Rlt_dec x 0) as [H|H].
  - rewrite setitem_middle. rewrite Rmax_right by lra. reflexivity.
  - rewrite Rmax_left by lra. reflexivity.
Qed.

Lemma limit_rates_spec (cp : Full.ControllerParams) (a : Np.array) :
  length a = 4%nat ->
  Full.Controller.limit_rates cp a
  = Ok (map (Spec.clamp (Full.rotor_rate_min cp) (Full.rotor_rate_max cp)) a).
Proof.
  intros Hlen. unfold Full.Controller.limit_rates. rewrite <- Hlen.
  apply (for_range_map _ _) with (pre := []).
  intros pre x post. rewrite getitem_middle. cbn [bind]. unfold Spec.clamp.
  destruct (Rlt_dec x (Full.rotor_rate_min cp)) as [H|H].
  - rewrite setitem_middle. cbn [bind]. rewrite getitem_middle. cbn [bind].
    rewrite (Rmax_right x) by lra.
    destruct (Rgt_dec _ _) as [H'|H'].
    + rewrite setitem_middle. rewrite Rmin_right by lra. reflexivity.
    + rewrite Rmin_left by lra. reflexivity.
  - cbn [bind]. rewrite getitem_middle. cbn [bind].
    rewrite (Rmax_left x) by lra.
    destruct (Rgt_dec _ _) as [H'|H'].
    + rewrite setitem_middle. rewrite Rmin_right by lra. reflexivity.
    + rewrite Rmin_left by lra. reflexivity.
Qed.

Lemma clamp_bounds (lo hi x : R) : lo <= hi -> lo <= Spec.clamp lo hi x <= hi.
Proof.
  intros H. unfold Spec.clamp.
  pose proof (Rmin_r (Rmax x lo) hi). pose proof (Rmax_r x lo).
  split; [|assumption].
  apply Rmin_glb; assumption.
Qed.

Lemma clamp_inside (lo hi x : R) : lo <= x <= hi -> Spec.clamp lo hi x = x.
Proof.
  intros [H1 H2]. unfold Spec.clamp.
  rewrite Rmax_left by assumption. rewrite Rmin_left by assumption. reflexivity.
Qed.

Lemma floored_quotient_nonneg (kt : R) (forces : Np.array) :
  0 < kt ->
  Forall (fun x => 0 <= x)
    (map (fun f => f / kt) (map (fun f => Rmax f 0) forces)).
Proof.
  intros Hkt. rewrite !Forall_map. apply Forall_forall. intros f _.
  apply Rmult_le_pos; [apply Rmax_r|].
  left. apply Rinv_0_lt_compat. assumption.
Qed.

Lemma rate_of_force_thrust (kt lo hi r : R) :
  0 < kt -> 0 <= r -> lo <= r <= hi ->
  Spec.rate_of_force kt lo hi (kt * (r * r)) = r.
Proof.
  intros Hkt Hr Hb. unfold Spec.rate_of_force.
  rewrite Rmax_left by nra.
  replace (kt * (r * r) / kt) with (r * r) by (field; lra).
  rewrite sqrt_square by assumption.
  apply clamp_inside. assumption.
Qed.

(** The rotor rates the controller returns, in closed form. *)
Lemma rotor_rates_from_u_value (p : Full.Params) (cp : Full.ControllerParams)
  (u1 u2x u2y u2z : R) :
  0 < Full.k_thrust p -> Full.k_torque p <> 0 -> Full.arm_length p <> 0 ->
  Full.Controller.rotor_rates_from_u p cp [u1; u2x; u2y; u2z]
  = Ok (map (Spec.rate_of_force (Full.k_thrust p) (Full.rotor_rate_min cp)
               (Full.rotor_rate_max cp))
            (Np.matvec (mixing_inverse (Full.arm_length p)
                          (Full.k_thrust p / Full.k_torque p))
                       [u1; u2x; u2y; u2z])).
Proof.
  intros Hkt Hkq HL.
  pose proof (mixing_ratio_nonzero p Hkt Hkq) as Hk.
  unfold Full.Controller.rotor_rates_from_u.
  rewrite py_div_ok by assumption. cbn [bind].
  rewrite inv_mixing_matrix by assumption. cbn [bind].
  rewrite zero_floor_spec by reflexivity. cbn [bind].
  rewrite div_scalar_ok by lra. cbn [bind].
  rewrite np_sqrt_nonneg by (apply floored_quotient_nonneg; assumption).
  cbn [bind]. rewrite limit_rates_spec by reflexivity.
  cbn [bind]. rewrite !map_map. reflexivity.
Qed.

(** * Lemmas on the state derivative *)

Lemma state_derivative_value (p : Full.Params)
  (position velocity : Np.array) (q : Rot3.t) (w0 w1 w2 u1 u2x u2y u2z : R)
  (I_inv : Np.matrix) :
  Full.mass p <> 0 -> is_3x3 (Full.inertia p) ->
  Np.inv (Full.inertia p) = Ok I_inv ->
  Full.FullQuadrotorDynamics.state_derivative p
    (QuadrotorState.mk position q velocity [w0; w1; w2]) u1
    [[u2x]; [u2y]; [u2z]]
  = Ok {| QuadrotorState.position := velocity;
          QuadrotorState.velocity :=
            Spec.velocity_rate (Full.mass p) (Full.g p) q u1;
          QuadrotorState.orientation := Spec.quaternion_rate q w0 w1 w2;
          QuadrotorState.angular_velocity :=
            Spec.angular_velocity_rate I_inv (Full.inertia p)
              [u2x; u2y; u2z] [w0; w1; w2] |}.
Proof.
  intros Hm H33 HI.
  unfold Full.FullQuadrotorDynamics.state_derivative.
  cbn [QuadrotorState.orientation QuadrotorState.velocity
       QuadrotorState.angular_velocity QuadrotorState.position].
  rewrite rot3_mul_matrix. cbn [bind].
  rewrite div_scalar_ok by assumption. cbn [bind].
  cbn [Np.transpose Np.zip_with map Np.getitem nth_error bind].
  rewrite HI. cbn [bind].
  destruct H33 as (a & b & c & d & e & f & g' & h & i & HA).
  rewrite HA. cbn [Np.matvec map Np.cross bind].
  rewrite dRot3_ok. cbn [bind].
  f_equal. f_equal.
  unfold Spec.velocity_rate. f_equal.
  unfold Np.add, Np.matvec, Spec.rotation_matrix. cbn [map Np.zip_with].
  list_eq; ring.
Qed.

Lemma state_derivative_massless (p : Full.Params) (state : QuadrotorState.t)
  (u1 : R) (u2 : Np.matrix) :
  Full.mass p = 0 ->
  Full.FullQuadrotorDynamics.state_derivative p state u1 u2 = NonFinite.
Proof.
  intros Hm. unfold Full.FullQuadrotorDynamics.state_derivative.
  rewrite rot3_mul_matrix. cbn [bind].
  rewrite Hm, div_scalar_zero. reflexivity.
Qed.

(** [step] hands back what the integrator returns, as it is: when the
    mixing and the integrator return, so does [step], with the last column
    of the solution as the new state. *)
Lemma full_step_returns_integrator_output (p : Full.Params)
  (to_state_vector : QuadrotorState.t -> Np.array)
  (from_state_vector : Np.array -> QuadrotorState.t)
  (solve_ivp : (R -> Np.array -> result Np.array) -> R * R -> Np.array ->
               result OdeResult.t)
  (self : QuadrotorDynamicsBase.t) (t : R) (input : QuadrotorCommands.t)
  (u1 : R) (u2 : Np.matrix) (solution : OdeResult.t) (last : Np.array) :
  Full.FullQuadrotorDynamics.actuation p (QuadrotorCommands.rotor_rates input)
  = Ok (u1, u2) ->
  solve_ivp
    (fun _ state =>
       d <- Full.FullQuadrotorDynamics.state_derivative p
              (from_state_vector state) u1 u2 ;;
       Ok (to_state_vector d))
    (0, QuadrotorDynamicsBase.dt self)
    (to_state_vector (QuadrotorDynamicsBase.state self)) = Ok solution ->
  OdeResult.last_column solution = Ok last ->
  Full.FullQuadrotorDynamics.step p to_state_vector from_state_vector solve_ivp
    self t input
  = Ok (from_state_vector last,
        QuadrotorDynamicsBase.mk (from_state_vector last)
          (QuadrotorDynamicsBase.dt self)).
Proof.
  intros Hact Hsol Hlast. unfold Full.FullQuadrotorDynamics.step.
  rewrite Hact. cbn [bind]. rewrite Hsol. cbn [bind]. rewrite Hlast.
  reflexivity.
Qed.

(** The time argument of [step] is not used, in either model. *)
Lemma full_step_ignores_time (p : Full.Params)
  (to_state_vector : QuadrotorState.t -> Np.array)
  (from_state_vector : Np.array -> QuadrotorState.t)
  (solve_ivp : (R -> Np.array -> result Np.array) -> R * R -> Np.array ->
               result OdeResult.t)
  (self : QuadrotorDynamicsBase.t) (t t' : R) (input : QuadrotorCommands.t) :
  Full.FullQuadrotorDynamics.step p to_state_vector from_state_vector solve_ivp
    self t input
  = Full.FullQuadrotorDynamics.step p to_state_vector from_state_vector
      solve_ivp self t' input.
Proof. reflexivity. Qed.

Lemma planar_step_ignores_time (p : Planar.Params)
  (to_state_vector : QuadrotorState.t -> Np.array)
  (from_state_vector : Np.array -> QuadrotorState.t)
  (solve_ivp : (R -> Np.array -> result Np.array) -> R * R -> Np.array ->
               result OdeResult.t)
  (to_yaw_pitch_roll : Rot3.t -> Np.array)
  (self : QuadrotorDynamicsBase.t) (t t' : R) (input : QuadrotorCommands.t) :
  Planar.PlanarQuadrotorDynamics.step p to_state_vector from_state_vector
    solve_ivp to_yaw_pitch_roll self t input
  = Planar.PlanarQuadrotorDynamics.step p to_state_vector from_state_vector
      solve_ivp to_yaw_pitch_roll self t' input.
Proof. reflexivity. Qed.

(** The planar step reads its commands through [rotor_rates[:2]] only. *)
Lemma planar_step_reads_slice (p : Planar.Params)
  (to_state_vector : QuadrotorState.t -> Np.array)
  (from_state_vector : Np.array -> QuadrotorState.t)
  (solve_ivp : (R -> Np.array -> result Np.array) -> R * R -> Np.array ->
               result OdeResult.t)
  (to_yaw_pitch_roll : Rot3.t -> Np.array)
  (self : QuadrotorDynamicsBase.t) (t : R) (c c' : QuadrotorCommands.t) :
  Np.slice 0 2 (QuadrotorCommands.rotor_rates c)
  = Np.slice 0 2 (QuadrotorCommands.rotor_rates c') ->
  Planar.PlanarQuadrotorDynamics.step p to_state_vector from_state_vector
    solve_ivp to_yaw_pitch_roll self t c
  = Planar.PlanarQuadrotorDynamics.step p to_state_vector from_state_vector
      solve_ivp to_yaw_pitch_roll self t c'.
Proof.
  intros H. unfold Planar.PlanarQuadrotorDynamics.step,
    Planar.PlanarQuadrotorDynamics.actuation.
  rewrite H. reflexivity.
Qed.

Lemma planar_actuation_two (p : Planar.Params) (r0 r1 : R) (rest : Np.array) :
  Planar.PlanarQuadrotorDynamics.actuation p (r0 :: r1 :: rest)
  = Ok (Planar.k_thrust p * (r0 * r0) + Planar.k_thrust p * (r1 * r1),
        (Planar.k_thrust p * (r0 * r0) - Planar.k_thrust p * (r1 * r1))
        * (Planar.arm_length p / 2)).
Proof. reflexivity. Qed.

(** * The default vehicle in hover, with the concrete stand-ins *)

Lemma default_inertia_3x3 : is_3x3 (Full.inertia Full.Params_default).
Proof. unfold is_3x3. do 9 eexists. reflexivity. Qed.

Lemma default_inertia_det : Np.det (Full.inertia Full.Params_default) <> 0.
Proof.
  unfold Np.det. cbn [Full.inertia Full.Params_default]. expand_det. lra.
Qed.

Lemma default_mass : Full.mass Full.Params_default <> 0.
Proof. cbn. lra. Qed.

Lemma default_arm_length : Full.arm_length Full.Params_default <> 0.
Proof. cbn. lra. Qed.

Lemma default_k_torque : Full.k_torque Full.Params_default <> 0.
Proof. pose proof k_torque_default_pos. lra. Qed.

Lemma default_rate_bounds :
  Full.rotor_rate_min Full.ControllerParams_default
  <= Full.rotor_rate_max Full.ControllerParams_default.
Proof. cbn. lra. Qed.

Lemma PI_gt_3 : 3 < PI.
Proof. pose proof PI2_3_2. lra. Qed.

Lemma hover_rate_sqr :
  hover_rate * hover_rate
  = Full.mass Full.Params_default * Full.g Full.Params_default / 4
    / Full.k_thrust Full.Params_default.
Proof.
  unfold hover_rate. apply sqrt_sqrt.
  pose proof k_thrust_default_pos.
  apply Rmult_le_pos; [cbn; lra|]. left. apply Rinv_0_lt_compat. assumption.
Qed.

(** The hover rate, about 420 rad/s, is inside the default saturation
    bounds; [3 < PI <= 4] is enough to see it. *)
Lemma hover_rate_bounds : 180 <= hover_rate <= 600.
Proof.
  pose proof PI_gt_3 as H3. pose proof PI_4 as H4.
  assert (Hx : 180 * 180
               <= Full.mass Full.Params_default * Full.g Full.Params_default / 4
                  / Full.k_thrust Full.Params_default
               <= 600 * 600).
  { unfold Full.k_thrust, Full.rotor_model.
    cbn [Full.mass Full.g Full.rho Full.rotor_diameter
         Full.static_thrust_coefficient Full.Params_default pow].
    match goal with
    | |- _ <= ?a / 4 / (?c / ?d) <= _ =>
        replace (a / 4 / (c / d)) with (a / 4 / c * 4 * (PI * PI))
          by (cbn [pow]; field; split; lra)
    end.
    assert (9 <= PI * PI <= 16) by nra.
    split; nra. }
  unfold hover_rate. split.
  - rewrite <- (sqrt_square 180) by lra. apply sqrt_le_1_alt. tauto.
  - rewrite <- (sqrt_square 600) by lra. apply sqrt_le_1_alt. tauto.
Qed.

Lemma hover_rate_of_force :
  Spec.rate_of_force (Full.k_thrust Full.Params_default) 180 600
    (Full.mass Full.Params_default * Full.g Full.Params_default / 4)
  = hover_rate.
Proof.
  unfold Spec.rate_of_force. rewrite Rmax_left by (cbn; lra).
  apply clamp_inside. exact hover_rate_bounds.
Qed.

Lemma hover_controller_step (t : R) :
  Full.Controller.step Full.Params_default Full.ControllerParams_default t
    (origin_reference t) state_at_rest = Ok hover_commands.
Proof.
  unfold Full.Controller.step, Full.Controller.thrust_command,
    Full.Controller.commanded_acceleration.
  cbn [origin_reference state_at_rest TrajectoryState.position
       TrajectoryState.velocity QuadrotorState.position QuadrotorState.velocity].
  rewrite !sub_self, !matvec_zeros.
  cbn [Full.K_p Full.K_d Full.ControllerParams_default Full.diag3 map Np.add
       Np.zip_with Np.getitem nth_error bind].
  rewrite rotor_rates_from_u_value
    by first [exact k_thrust_default_pos | exact default_k_torque
             | exact default_arm_length].
  cbn [bind]. unfold hover_commands. do 2 f_equal.
  unfold Np.matvec, mixing_inverse, Np.dot.
  cbn [map Np.zip_with fold_right Full.rotor_rate_min Full.rotor_rate_max
       Full.ControllerParams_default].
  list_eq; rewrite <- hover_rate_of_force; f_equal; unfold Rdiv; ring.
Qed.

Lemma inv3_rows (A B : Np.matrix) :
  is_3x3 A -> Np.inv A = Ok B -> exists r0 r1 r2, B = [r0; r1; r2].
Proof.
  intros (a & b & c & d & e & f & g & h & i & ->).
  rewrite inv_square by reflexivity.
  destruct (Req_dec_T _ 0) as [E|E]; [discriminate|].
  intros H. injection H as <-. cbn [length seq map].
  do 3 eexists. reflexivity.
Qed.

(** With the hover commands the vehicle at rest stays at rest over a step. *)
Lemma hover_dynamics_step (dt t : R) :
  Full.FullQuadrotorDynamics.step Full.Params_default
    StandIn.to_state_vector StandIn.from_state_vector StandIn.euler_ivp
    (QuadrotorDynamicsBase.mk state_at_rest dt) t hover_commands
  = Ok (state_at_rest, QuadrotorDynamicsBase.mk state_at_rest dt).
Proof.
  unfold Full.FullQuadrotorDynamics.step, hover_commands.
  cbn [QuadrotorCommands.rotor_rates].
  rewrite actuation_value by exact default_k_torque.
  rewrite hover_rate_sqr.
  unfold Spec.mix. cbn [bind].
  unfold StandIn.euler_ivp at 1. cbn [fst snd].
  cbn [QuadrotorDynamicsBase.state QuadrotorDynamicsBase.dt].
  unfold StandIn.to_state_vector, StandIn.from_state_vector, state_at_rest.
  cbn [QuadrotorState.position QuadrotorState.velocity
       QuadrotorState.orientation QuadrotorState.angular_velocity
       Rot3.to_storage Rot3.identity Rot3.x Rot3.y Rot3.z Rot3.w app Np.slice
       skipn firstn Nat.sub nth].
  destruct (inv_ok _ (is_3x3_square _ default_inertia_3x3) default_inertia_det) as [I_inv HI].
  destruct (inv3_rows _ _ default_inertia_3x3 HI) as (r0 & r1 & r2 & HB).
  rewrite (state_derivative_value _ _ _ _ _ _ _ _ _ _ _ I_inv);
    [ | exact default_mass | exact default_inertia_3x3 | exact HI ].
  cbn [bind].
  cbn [QuadrotorState.position QuadrotorState.velocity
       QuadrotorState.orientation QuadrotorState.angular_velocity
       Rot3.to_storage app].
  unfold Spec.velocity_rate, Spec.angular_velocity_rate, Spec.quaternion_rate,
    Spec.rotation_matrix, Spec.cross3, Np.add, Np.sub, Np.matvec.
  rewrite HB.
  cbn [Rot3.x Rot3.y Rot3.z Rot3.w map Np.zip_with app nth Full.inertia
       Full.Params_default].
  unfold OdeResult.last_column.
  cbn [OdeResult.y length for_range Np.getitem nth_error bind rev app].
  cbn [Np.slice skipn firstn Nat.sub nth].
  pose proof k_thrust_default_pos as Hkt.
  match goal with
  | |- Ok (?s, _) = _ => assert (Hs : s = state_at_rest)
  end.
  { unfold state_at_rest. f_equal.
    - list_eq; ring.
    - unfold Rot3.identity. f_equal; field.
    - unfold Np.dot.
      cbn [Np.zip_with fold_right Full.mass Full.g Full.Params_default] in *.
      list_eq; field; lra.
    - match goal with
      | |- context [Np.dot r0 ?v] =>
          replace v with (map (fun _ : R => 0) [0; 0; 0])
            by (cbn [map]; unfold Np.dot; cbn [Np.zip_with fold_right];
                list_eq; ring)
      end.
      rewrite !dot_zeros. list_eq; ring. }
  rewrite Hs. reflexivity.
Qed.

(** * Checks of the model on the spec's test scenarios *)

(** Four equal rotor rates: no torque, and a thrust of [4 k_thrust rate^2]. *)
Lemma symmetric_rotors_zero_torque (p : Full.Params) (rate : R) :
  Full.k_torque p <> 0 ->
  Full.FullQuadrotorDynamics.actuation p [rate; rate; rate; rate]
  = Ok (4 * Full.k_thrust p * (rate * rate), [[0]; [0]; [0]]).
Proof.
  intros Hk. rewrite actuation_value by assumption. unfold Spec.mix.
  f_equal. f_equal; [ring|]. list_eq; ring.
Qed.

(** The level orientation leaves vectors as they are. *)
Lemma rot3_identity_mul (v0 v1 v2 : R) :
  Rot3.mul Rot3.identity [v0; v1; v2] = Ok [v0; v1; v2].
Proof. unfold Rot3.mul, Rot3.identity. cbn. f_equal. list_eq; ring. Qed.

(** Free fall: with no thrust and no torque the level vehicle at rest
    accelerates by [-g] along z and does not start to turn. *)
Lemma free_fall_derivative :
  exists I_inv,
    Np.inv (Full.inertia Full.Params_default) = Ok I_inv
    /\ Full.FullQuadrotorDynamics.state_derivative Full.Params_default
         state_at_rest 0 [[0]; [0]; [0]]
       = Ok (QuadrotorState.mk [0; 0; 0] (Rot3.mk 0 0 0 0)
               [0; 0; - Full.g Full.Params_default] [0; 0; 0]).
Proof.
  destruct (inv_ok _ (is_3x3_square _ default_inertia_3x3) default_inertia_det) as [I_inv HI].
  destruct (inv3_rows _ _ default_inertia_3x3 HI) as (r0 & r1 & r2 & HB).
  exists I_inv. split; [exact HI|].
  unfold state_at_rest.
  rewrite (state_derivative_value _ _ _ _ _ _ _ _ _ _ _ I_inv);
    [ | exact default_mass | exact default_inertia_3x3 | exact HI ].
  f_equal. f_equal.
  - unfold Spec.quaternion_rate, Rot3.identity. cbn. f_equal; field.
  - unfold Spec.velocity_rate, Spec.rotation_matrix, Rot3.identity, Np.add,
      Np.matvec, Np.dot.
    cbn [Rot3.x Rot3.y Rot3.z Rot3.w map Np.zip_with fold_right Full.mass
         Full.g Full.Params_default].
    list_eq; field; lra.
  - unfold Spec.angular_velocity_rate, Spec.cross3, Np.sub, Np.matvec.
    rewrite HB. cbn [map Np.zip_with nth Full.inertia Full.Params_default].
    match goal with
    | |- context [Np.dot r0 ?v] =>
        replace v with (map (fun _ : R => 0) [0; 0; 0])
          by (cbn [map]; unfold Np.dot; cbn [Np.zip_with fold_right];
              list_eq; ring)
    end.
    rewrite !dot_zeros. reflexivity.
Qed.

(** * The claims *)

(** C1.  For every four rotor rates the forward map of the full dynamics
    computes the thrusts [F_i = k_thrust * rate_i^2] and from them
    [u1 = F1+F2+F3+F4], [u2x = L*(F2-F4)], [u2y = L*(F3-F1)] and
    [u2z = k*(F1-F2+F3-F4)], with [L] the arm length and
    [k = k_thrust/k_torque]. *)
Theorem forward_mixing_map (p : Full.Params) (r1 r2 r3 r4 : R) :
  Full.k_torque p <> 0 ->
  let F := fun rate => Full.k_thrust p * (rate * rate) in
  let L := Full.arm_length p in
  let k := Full.k_thrust p / Full.k_torque p in
  Full.FullQuadrotorDynamics.rotor_thrust_model p [r1; r2; r3; r4]
  = [F r1; F r2; F r3; F r4]
  /\ Full.FullQuadrotorDynamics.actuation p [r1; r2; r3; r4]
     = Ok (F r1 + F r2 + F r3 + F r4,
           [[L * (F r2 - F r4)];
            [L * (F r3 - F r1)];
            [k * (F r1 - F r2 + F r3 - F r4)]]).
Proof.
  intros Hk F L k. split; [reflexivity|].
  rewrite actuation_value by assumption. reflexivity.
Qed.

Lemma forward_mixing_map_witness :
  Full.k_torque Full.Params_default <> 0
  /\ let F := fun rate => Full.k_thrust Full.Params_default * (rate * rate) in
     let L := Full.arm_length Full.Params_default in
     let k := Full.k_thrust Full.Params_default
              / Full.k_torque Full.Params_default in
     Full.FullQuadrotorDynamics.rotor_thrust_model Full.Params_default
       [200; 300; 400; 500]
     = [F 200; F 300; F 400; F 500]
     /\ Full.FullQuadrotorDynamics.actuation Full.Params_default
          [200; 300; 400; 500]
        = Ok (F 200 + F 300 + F 400 + F 500,
              [[L * (F 300 - F 500)];
               [L * (F 400 - F 200)];
               [k * (F 200 - F 300 + F 400 - F 500)]]).
Proof.
  split; [exact default_k_torque|].
  exact (forward_mixing_map Full.Params_default 200 300 400 500
           default_k_torque).
Defined.

(** C2.  For non-negative rotor rates inside the saturation bounds, the
    forward map followed by the controller's [rotor_rates_from_u] gives the
    rates back; the dynamics and the controller build the same mixing
    matrix. *)
Theorem mixing_round_trip (p : Full.Params) (cp : Full.ControllerParams)
  (r1 r2 r3 r4 : R) :
  0 < Full.k_thrust p -> Full.k_torque p <> 0 -> Full.arm_length p <> 0 ->
  Forall (fun r => 0 <= r
                   /\ Full.rotor_rate_min cp <= r <= Full.rotor_rate_max cp)
         [r1; r2; r3; r4] ->
  (forall L k, Full.FullQuadrotorDynamics.mixing_matrix L k
               = Full.Controller.mixing_matrix L k)
  /\ exists u,
      Full.FullQuadrotorDynamics.actuation p [r1; r2; r3; r4] = Ok u
      /\ Full.Controller.rotor_rates_from_u p cp (Spec.u_vector u)
         = Ok [r1; r2; r3; r4].
Proof.
  intros Hkt Hkq HL Hr. split; [exact mixing_matrices_agree|].
  pose proof (mixing_ratio_nonzero p Hkt Hkq) as Hk.
  eexists. split; [apply actuation_value; assumption|].
  unfold Spec.u_vector, Spec.mix. cbn [fst snd concat app].
  rewrite rotor_rates_from_u_value by assumption.
  pose proof (unmix_mix (Full.arm_length p) (Full.k_thrust p / Full.k_torque p)
                (Full.k_thrust p * (r1 * r1)) (Full.k_thrust p * (r2 * r2))
                (Full.k_thrust p * (r3 * r3)) (Full.k_thrust p * (r4 * r4))
                HL Hk) as Hun.
  unfold Spec.u_vector, Spec.mix in Hun. cbn [fst snd concat app] in Hun.
  rewrite Hun. cbn [map]. f_equal.
  repeat match goal with
         | H : Forall _ (_ :: _) |- _ => inversion H; subst; clear H
         end.
  list_eq; apply (rate_of_force_thrust (Full.k_thrust p)); tauto.
Qed.

Lemma mixing_round_trip_witness :
  0 < Full.k_thrust Full.Params_default
  /\ Full.k_torque Full.Params_default <> 0
  /\ Full.arm_length Full.Params_default <> 0
  /\ Forall (fun r => 0 <= r /\ 180 <= r <= 600) [200; 300; 400; 500]
  /\ exists u,
      Full.FullQuadrotorDynamics.actuation Full.Params_default
        [200; 300; 400; 500] = Ok u
      /\ Full.Controller.rotor_rates_from_u Full.Params_default
           Full.ControllerParams_default (Spec.u_vector u)
         = Ok [200; 300; 400; 500].
Proof.
  assert (Hr : Forall (fun r => 0 <= r /\ 180 <= r <= 600) [200; 300; 400; 500])
    by (repeat constructor; lra).
  split; [exact k_thrust_default_pos|].
  split; [exact default_k_torque|].
  split; [exact default_arm_length|].
  split; [exact Hr|].
  exact (proj2 (mixing_round_trip Full.Params_default
                  Full.ControllerParams_default 200 300 400 500
                  k_thrust_default_pos default_k_torque default_arm_length Hr)).
Defined.

(** C3.  For every state and actuation [(u1, u2)] the state derivative of
    the full dynamics is: position rate = velocity; velocity rate =
    [([0,0,-mass*g] + R*[0,0,u1]) / mass], with [R] the rotation of the
    current orientation; angular-velocity rate =
    [I^-1 * (u2 - omega x (I*omega))], with [I^-1] the inverse of the
    inertia tensor. *)
Theorem state_derivative_equations_of_motion (p : Full.Params)
  (position velocity : Np.array) (q : Rot3.t)
  (w0 w1 w2 u1 u2x u2y u2z : R) :
  Full.mass p <> 0 -> is_3x3 (Full.inertia p) -> Np.det (Full.inertia p) <> 0 ->
  exists I_inv d,
    Np.inv (Full.inertia p) = Ok I_inv
    /\ Np.matmul I_inv (Full.inertia p) = Spec.identity 3
    /\ Full.FullQuadrotorDynamics.state_derivative p
         (QuadrotorState.mk position q velocity [w0; w1; w2]) u1
         [[u2x]; [u2y]; [u2z]] = Ok d
    /\ QuadrotorState.position d = velocity
    /\ QuadrotorState.velocity d
       = Spec.velocity_rate (Full.mass p) (Full.g p) q u1
    /\ QuadrotorState.angular_velocity d
       = Spec.angular_velocity_rate I_inv (Full.inertia p)
           [u2x; u2y; u2z] [w0; w1; w2].
Proof.
  intros Hm H33 Hdet.
  destruct (inv_ok _ (is_3x3_square _ H33) Hdet) as [I_inv HI].
  exists I_inv. eexists.
  split; [exact HI|].
  split; [apply inv3_left; assumption|].
  split; [apply state_derivative_value; eassumption|].
  repeat split.
Qed.

Lemma state_derivative_equations_of_motion_witness :
  Full.mass Full.Params_default <> 0
  /\ is_3x3 (Full.inertia Full.Params_default)
  /\ Np.det (Full.inertia Full.Params_default) <> 0
  /\ exists I_inv d,
      Np.inv (Full.inertia Full.Params_default) = Ok I_inv
      /\ Np.matmul I_inv (Full.inertia Full.Params_default) = Spec.identity 3
      /\ Full.FullQuadrotorDynamics.state_derivative Full.Params_default
           (QuadrotorState.mk [0; 0; 1] Rot3.identity [1; 0; 0] [0; 0; 2]) 13
           [[0]; [1]; [0]] = Ok d
      /\ QuadrotorState.position d = [1; 0; 0]
      /\ QuadrotorState.velocity d
         = Spec.velocity_rate (Full.mass Full.Params_default)
             (Full.g Full.Params_default) Rot3.identity 13
      /\ QuadrotorState.angular_velocity d
         = Spec.angular_velocity_rate I_inv (Full.inertia Full.Params_default)
             [0; 1; 0] [0; 0; 2].
Proof.
  split; [exact default_mass|].
  split; [exact default_inertia_3x3|].
  split; [exact default_inertia_det|].
  exact (state_derivative_equations_of_motion Full.Params_default
           [0; 0; 1] [1; 0; 0] Rot3.identity 0 0 2 13 0 1 0
           default_mass default_inertia_3x3 default_inertia_det).
Defined.

(** C4.  For every input [u] the controller sets each inverse-mixed force
    below zero to zero before the square root, so the square root is only
    taken of non-negative numbers; the rate of rotor [i] is
    [sqrt(max(force_i, 0) / k_thrust)] clamped to the rate bounds, and every
    returned rate lies in [[rotor_rate_min, rotor_rate_max]]. *)
Theorem rotor_rates_clamped (p : Full.Params) (cp : Full.ControllerParams)
  (u1 u2x u2y u2z : R) :
  0 < Full.k_thrust p -> Full.k_torque p <> 0 -> Full.arm_length p <> 0 ->
  Full.rotor_rate_min cp <= Full.rotor_rate_max cp ->
  exists mixing_inv,
    Np.inv (Full.Controller.mixing_matrix (Full.arm_length p)
              (Full.k_thrust p / Full.k_torque p)) = Ok mixing_inv
    /\ let force_array := Np.matvec mixing_inv [u1; u2x; u2y; u2z] in
       let floored := map (fun f => Rmax f 0) force_array in
       let rate := Spec.rate_of_force (Full.k_thrust p)
                     (Full.rotor_rate_min cp) (Full.rotor_rate_max cp) in
       Full.Controller.zero_floor force_array = Ok floored
       /\ Forall (fun f => 0 <= f) floored
       /\ Forall (fun x => 0 <= x) (map (fun f => f / Full.k_thrust p) floored)
       /\ Forall (fun w => 0 <= w)
            (map (fun f => sqrt (f / Full.k_thrust p)) floored)
       /\ Full.Controller.rotor_rates_from_u p cp [u1; u2x; u2y; u2z]
          = Ok (map rate force_array)
       /\ Forall (fun r => Full.rotor_rate_min cp <= r <= Full.rotor_rate_max cp)
            (map rate force_array).
Proof.
  intros Hkt Hkq HL Hmm.
  pose proof (mixing_ratio_nonzero p Hkt Hkq) as Hk.
  exists (mixing_inverse (Full.arm_length p) (Full.k_thrust p / Full.k_torque p)).
  split; [apply inv_mixing_matrix; assumption|].
  cbv zeta.
  split; [apply zero_floor_spec; reflexivity|].
  split.
  { apply Forall_map. apply Forall_forall. intros f _. apply Rmax_r. }
  split; [apply floored_quotient_nonneg; assumption|].
  split.
  { apply Forall_map. apply Forall_forall. intros f _. apply sqrt_pos. }
  split; [apply rotor_rates_from_u_value; assumption|].
  apply Forall_map. apply Forall_forall. intros f _.
  apply clamp_bounds. assumption.
Qed.

Lemma rotor_rates_clamped_witness :
  0 < Full.k_thrust Full.Params_default
  /\ Full.k_torque Full.Params_default <> 0
  /\ Full.arm_length Full.Params_default <> 0
  /\ Full.rotor_rate_min Full.ControllerParams_default
     <= Full.rotor_rate_max Full.ControllerParams_default
  /\ exists mixing_inv,
      Np.inv (Full.Controller.mixing_matrix
                (Full.arm_length Full.Params_default)
                (Full.k_thrust Full.Params_default
                 / Full.k_torque Full.Params_default)) = Ok mixing_inv
      /\ let force_array := Np.matvec mixing_inv [-5; 1; 0; 2] in
         let floored := map (fun f => Rmax f 0) force_array in
         let rate := Spec.rate_of_force (Full.k_thrust Full.Params_default)
                       (Full.rotor_rate_min Full.ControllerParams_default)
                       (Full.rotor_rate_max Full.ControllerParams_default) in
         Full.Controller.zero_floor force_array = Ok floored
         /\ Forall (fun f => 0 <= f) floored
         /\ Forall (fun x => 0 <= x)
              (map (fun f => f / Full.k_thrust Full.Params_default) floored)
         /\ Forall (fun w => 0 <= w)
              (map (fun f => sqrt (f / Full.k_thrust Full.Params_default))
                 floored)
         /\ Full.Controller.rotor_rates_from_u Full.Params_default
              Full.ControllerParams_default [-5; 1; 0; 2]
            = Ok (map rate force_array)
         /\ Forall (fun r => Full.rotor_rate_min Full.ControllerParams_default
                             <= r
                             <= Full.rotor_rate_max Full.ControllerParams_default)
              (map rate force_array).
Proof.
  split; [exact k_thrust_default_pos|].
  split; [exact default_k_torque|].
  split; [exact default_arm_length|].
  split; [exact default_rate_bounds|].
  exact (rotor_rates_clamped Full.Params_default Full.ControllerParams_default
           (-5) 1 0 2 k_thrust_default_pos default_k_torque default_arm_length
           default_rate_bounds).
Defined.

(** C5.  When the reference's position and velocity equal the state's, the
    commanded acceleration [K_d e_v + K_p e_p] is zero and the commanded
    thrust [u1] is [mass * g]. *)
Theorem hover_thrust_command (p : Full.Params) (cp : Full.ControllerParams)
  (trajectory : TrajectoryState.t) (state : QuadrotorState.t) :
  is_3x3 (Full.K_p cp) -> is_3x3 (Full.K_d cp) ->
  length (QuadrotorState.position state) = 3%nat ->
  length (QuadrotorState.velocity state) = 3%nat ->
  TrajectoryState.position trajectory = QuadrotorState.position state ->
  TrajectoryState.velocity trajectory = QuadrotorState.velocity state ->
  Full.Controller.commanded_acceleration cp trajectory state = [0; 0; 0]
  /\ Full.Controller.thrust_command p cp trajectory state
     = Ok (Full.mass p * Full.g p).
Proof.
  intros HKp HKd _ _ Hpos Hvel.
  assert (Hacc : Full.Controller.commanded_acceleration cp trajectory state
                 = [0; 0; 0]).
  { unfold Full.Controller.commanded_acceleration.
    rewrite Hpos, Hvel, !sub_self, !matvec_zeros.
    destruct HKp as (a & b & c & d & e & f & g & h & i & ->).
    destruct HKd as (a' & b' & c' & d' & e' & f' & g' & h' & i' & ->).
    cbn [map Np.add Np.zip_with]. list_eq; ring. }
  split; [exact Hacc|].
  unfold Full.Controller.thrust_command. rewrite Hacc.
  cbn [Np.getitem nth_error bind]. f_equal. ring.
Qed.

Lemma default_gains_3x3 :
  is_3x3 (Full.K_p Full.ControllerParams_default)
  /\ is_3x3 (Full.K_d Full.ControllerParams_default).
Proof. split; unfold is_3x3; do 9 eexists; reflexivity. Qed.

Lemma hover_thrust_command_witness :
  is_3x3 (Full.K_p Full.ControllerParams_default)
  /\ is_3x3 (Full.K_d Full.ControllerParams_default)
  /\ length [0; 0; 1] = 3%nat
  /\ length [0; 0; 0] = 3%nat
  /\ TrajectoryState.position (TrajectoryState.mk 2 [0; 0; 1] [0; 0; 0])
     = QuadrotorState.position
         (QuadrotorState.mk [0; 0; 1] Rot3.identity [0; 0; 0] [0; 0; 0])
  /\ TrajectoryState.velocity (TrajectoryState.mk 2 [0; 0; 1] [0; 0; 0])
     = QuadrotorState.velocity
         (QuadrotorState.mk [0; 0; 1] Rot3.identity [0; 0; 0] [0; 0; 0])
  /\ Full.Controller.commanded_acceleration Full.ControllerParams_default
       (TrajectoryState.mk 2 [0; 0; 1] [0; 0; 0])
       (QuadrotorState.mk [0; 0; 1] Rot3.identity [0; 0; 0] [0; 0; 0])
     = [0; 0; 0]
  /\ Full.Controller.thrust_command Full.Params_default
       Full.ControllerParams_default
       (TrajectoryState.mk 2 [0; 0; 1] [0; 0; 0])
       (QuadrotorState.mk [0; 0; 1] Rot3.identity [0; 0; 0] [0; 0; 0])
     = Ok (Full.mass Full.Params_default * Full.g Full.Params_default).
Proof.
  split; [exact (proj1 default_gains_3x3)|].
  split; [exact (proj2 default_gains_3x3)|].
  split; [reflexivity|].
  split; [reflexivity|].
  split; [reflexivity|].
  split; [reflexivity|].
  exact (hover_thrust_command Full.Params_default Full.ControllerParams_default
           (TrajectoryState.mk 2 [0; 0; 1] [0; 0; 0])
           (QuadrotorState.mk [0; 0; 1] Rot3.identity [0; 0; 0] [0; 0; 0])
           (proj1 default_gains_3x3) (proj2 default_gains_3x3)
           eq_refl eq_refl eq_refl eq_refl).
Defined.

Lemma zero_row_det (A : Np.matrix) :
  is_3x3 A -> In [0; 0; 0] A -> Np.det A = 0.
Proof.
  intros (a & b & c & d & e & f & g & h & i & ->) Hrow.
  unfold Np.det. expand_det.
  cbn [In] in Hrow.
  destruct Hrow as [H|[H|[H|[]]]]; injection H as -> -> ->; ring.
Qed.

Lemma inertia_zero_3x3 : is_3x3 inertia_zero.
Proof. unfold is_3x3. do 9 eexists. reflexivity. Qed.

Lemma inertia_zero_row : In [0; 0; 0] inertia_zero.
Proof. left. reflexivity. Qed.

(** C8, as the spec has it, fails: the constructor accepts a configuration
    with a negative mass, a singular inertia tensor, a zero arm length and a
    zero torque coefficient. *)
Lemma construction_accepts_invalid :
  Spec.invalid_configuration Params_invalid
  /\ Full.mass Params_invalid <= 0
  /\ Np.det (Full.inertia Params_invalid) = 0
  /\ Full.arm_length Params_invalid = 0
  /\ Full.static_torque_coefficient Params_invalid = 0
  /\ Full.Params_init (-1) inertia_zero (10 * 0.0254) 0.14553 0 0 9.80665 1.225
     = Ok Params_invalid
  /\ ~ (forall mass inertia rotor_diameter c_thrust c_torque arm_length g rho,
           Spec.invalid_configuration
             (Full.mkParams mass inertia rotor_diameter c_thrust c_torque
                arm_length g rho) ->
           exists e,
             Full.Params_init mass inertia rotor_diameter c_thrust c_torque
               arm_length g rho = Raised e).
Proof.
  assert (Hm : Full.mass Params_invalid <= 0) by (cbn; lra).
  assert (Hinv : Spec.invalid_configuration Params_invalid) by (left; exact Hm).
  repeat split; try assumption; try reflexivity.
  - unfold Np.det, Params_invalid, Params_with, inertia_zero.
    cbn [Full.inertia]. expand_det. ring.
  - intros H.
    destruct (H (-1) inertia_zero (10 * 0.0254) 0.14553 0 0 9.80665 1.225 Hinv)
      as [e He].
    discriminate He.
Qed.

(** C8, amended.  No constructor validates: [Params(...)] and
    [ControllerParams(...)] store whatever they are given, and the dynamics
    constructor only runs the base-class constructor.  A defect of the
    configuration shows when a tick uses it: a zero torque coefficient
    raises [ZeroDivisionError] where [k_thrust / k_torque] is computed (in
    the dynamics step and in [rotor_rates_from_u]); a zero arm length raises
    [LinAlgError] in [rotor_rates_from_u]; an inertia tensor with a zero
    row raises [LinAlgError] in [state_derivative].  A non-positive mass
    raises nothing: with mass zero the derivative holds non-finite values,
    with a negative mass it is computed as usual. *)
Theorem construction_unvalidated :
  (forall mass inertia rotor_diameter c_thrust c_torque arm_length g rho,
      Full.Params_init mass inertia rotor_diameter c_thrust c_torque
        arm_length g rho
      = Ok (Full.mkParams mass inertia rotor_diameter c_thrust c_torque
              arm_length g rho))
  /\ (forall K_p K_d rate_min rate_max,
         Full.ControllerParams_init K_p K_d rate_min rate_max
         = Ok (Full.mkControllerParams K_p K_d rate_min rate_max))
  /\ (forall self, Full.FullQuadrotorDynamics.init (Ok self) = Ok self)
  /\ (forall p r1 r2 r3 r4,
         Full.static_torque_coefficient p = 0 ->
         Full.FullQuadrotorDynamics.actuation p [r1; r2; r3; r4]
         = Raised ZeroDivisionError)
  /\ (forall p cp u,
         Full.static_torque_coefficient p = 0 ->
         Full.Controller.rotor_rates_from_u p cp u = Raised ZeroDivisionError)
  /\ (forall p cp u,
         Full.k_torque p <> 0 -> Full.arm_length p = 0 ->
         Full.Controller.rotor_rates_from_u p cp u = Raised LinAlgError)
  /\ (forall p position q velocity w0 w1 w2 u1 u2x u2y u2z,
         Full.mass p <> 0 -> is_3x3 (Full.inertia p) ->
         In [0; 0; 0] (Full.inertia p) ->
         Full.FullQuadrotorDynamics.state_derivative p
           (QuadrotorState.mk position q velocity [w0; w1; w2]) u1
           [[u2x]; [u2y]; [u2z]]
         = Raised LinAlgError)
  /\ (forall p state u1 u2,
         Full.mass p = 0 ->
         Full.FullQuadrotorDynamics.state_derivative p state u1 u2 = NonFinite)
  /\ (forall p position q velocity w0 w1 w2 u1 u2x u2y u2z,
         Full.mass p < 0 -> is_3x3 (Full.inertia p) ->
         Np.det (Full.inertia p) <> 0 ->
         exists d,
           Full.FullQuadrotorDynamics.state_derivative p
             (QuadrotorState.mk position q velocity [w0; w1; w2]) u1
             [[u2x]; [u2y]; [u2z]] = Ok d).
Proof.
  split; [reflexivity|].
  split; [reflexivity|].
  split; [reflexivity|].
  split.
  { intros p r1 r2 r3 r4 Hc.
    unfold Full.FullQuadrotorDynamics.actuation.
    cbn [Full.FullQuadrotorDynamics.rotor_thrust_model Np.square Np.scale map
         unpack4 bind].
    unfold Full.k_torque. rewrite Hc, rotor_model_zero_coefficient, py_div_zero.
    reflexivity. }
  split.
  { intros p cp u Hc. unfold Full.Controller.rotor_rates_from_u.
    unfold Full.k_torque. rewrite Hc, rotor_model_zero_coefficient, py_div_zero.
    reflexivity. }
  split.
  { intros p cp u Hk HL. unfold Full.Controller.rotor_rates_from_u.
    rewrite py_div_ok by assumption. cbn [bind].
    rewrite HL, inv_mixing_singular_arm. reflexivity. }
  split.
  { intros p position q velocity w0 w1 w2 u1 u2x u2y u2z Hm H33 Hrow.
    pose proof (zero_row_det _ H33 Hrow) as Hdet.
    unfold Full.FullQuadrotorDynamics.state_derivative.
    cbn [QuadrotorState.orientation QuadrotorState.velocity
         QuadrotorState.angular_velocity QuadrotorState.position].
    rewrite rot3_mul_matrix. cbn [bind].
    rewrite div_scalar_ok by assumption. cbn [bind].
    cbn [Np.transpose Np.zip_with map Np.getitem nth_error bind].
    rewrite inv_singular by assumption. reflexivity. }
  split; [exact state_derivative_massless|].
  intros p position q velocity w0 w1 w2 u1 u2x u2y u2z Hm H33 Hdet.
  destruct (inv_ok _ (is_3x3_square _ H33) Hdet) as [I_inv HI].
  eexists. apply (state_derivative_value p position velocity q w0 w1 w2 u1
                    u2x u2y u2z I_inv); [lra | assumption | assumption].
Qed.

Lemma Params_no_arm_k_torque : Full.k_torque Params_no_arm <> 0.
Proof.
  assert (0 < Full.k_torque Params_no_arm) by (apply rotor_model_pos; cbn; lra).
  lra.
Qed.

Lemma inertia_default_det : Np.det inertia_default <> 0.
Proof. unfold Np.det, inertia_default. expand_det. lra. Qed.

Lemma inertia_default_3x3 : is_3x3 inertia_default.
Proof. unfold is_3x3. do 9 eexists. reflexivity. Qed.

Lemma construction_unvalidated_witness :
  (Full.static_torque_coefficient Params_no_torque = 0
   /\ Full.FullQuadrotorDynamics.actuation Params_no_torque [200; 300; 400; 500]
      = Raised ZeroDivisionError
   /\ Full.Controller.rotor_rates_from_u Params_no_torque
        Full.ControllerParams_default [13; 0; 0; 0]
      = Raised ZeroDivisionError)
  /\ (Full.k_torque Params_no_arm <> 0
      /\ Full.arm_length Params_no_arm = 0
      /\ Full.Controller.rotor_rates_from_u Params_no_arm
           Full.ControllerParams_default [13; 0; 0; 0]
         = Raised LinAlgError)
  /\ (Full.mass Params_no_inertia <> 0
      /\ is_3x3 (Full.inertia Params_no_inertia)
      /\ In [0; 0; 0] (Full.inertia Params_no_inertia)
      /\ Full.FullQuadrotorDynamics.state_derivative Params_no_inertia
           state_at_rest 13 [[0]; [0]; [0]]
         = Raised LinAlgError)
  /\ (Full.mass Params_massless = 0
      /\ Full.FullQuadrotorDynamics.state_derivative Params_massless
           state_at_rest 13 [[0]; [0]; [0]]
         = NonFinite)
  /\ (Full.mass Params_negative_mass < 0
      /\ is_3x3 (Full.inertia Params_negative_mass)
      /\ Np.det (Full.inertia Params_negative_mass) <> 0
      /\ exists d,
          Full.FullQuadrotorDynamics.state_derivative Params_negative_mass
            state_at_rest 13 [[0]; [0]; [0]] = Ok d).
Proof.
  destruct construction_unvalidated
    as (_ & _ & _ & Hact & Hrates & Harm & Hinertia & Hzero & Hneg).
  assert (Hm : Full.mass Params_no_inertia <> 0) by (cbn; lra).
  assert (Hn : Full.mass Params_negative_mass < 0) by (cbn; lra).
  split.
  { split; [reflexivity|]. split.
    - apply Hact. reflexivity.
    - apply Hrates. reflexivity. }
  split.
  { split; [exact Params_no_arm_k_torque|]. split; [reflexivity|].
    apply Harm; [exact Params_no_arm_k_torque | reflexivity]. }
  split.
  { split; [exact Hm|]. split; [exact inertia_zero_3x3|].
    split; [exact inertia_zero_row|].
    apply (Hinertia Params_no_inertia [0; 0; 0] Rot3.identity [0; 0; 0] 0 0 0
             13 0 0 0 Hm inertia_zero_3x3 inertia_zero_row). }
  split.
  { split; [reflexivity|]. apply Hzero. reflexivity. }
  split; [exact Hn|]. split; [exact inertia_default_3x3|].
  split; [exact inertia_default_det|].
  apply (Hneg Params_negative_mass [0; 0; 0] Rot3.identity [0; 0; 0] 0 0 0
           13 0 0 0 Hn inertia_default_3x3 inertia_default_det).
Defined.

(** C10.  The planar step uses the first two rotor rates only: two commands
    that agree on [rotor_rates[0]] and [rotor_rates[1]] give the same
    outcome, whatever their other two rates are. *)
Theorem planar_step_first_two_rates (p : Planar.Params)
  (to_state_vector : QuadrotorState.t -> Np.array)
  (from_state_vector : Np.array -> QuadrotorState.t)
  (solve_ivp : (R -> Np.array -> result Np.array) -> R * R -> Np.array ->
               result OdeResult.t)
  (to_yaw_pitch_roll : Rot3.t -> Np.array)
  (self : QuadrotorDynamicsBase.t) (t : R) (r0 r1 r2 r3 r2' r3' : R) :
  Planar.PlanarQuadrotorDynamics.step p to_state_vector from_state_vector
    solve_ivp to_yaw_pitch_roll self t (QuadrotorCommands.mk [r0; r1; r2; r3])
  = Planar.PlanarQuadrotorDynamics.step p to_state_vector from_state_vector
      solve_ivp to_yaw_pitch_roll self t
      (QuadrotorCommands.mk [r0; r1; r2'; r3']).
Proof.
  unfold Planar.PlanarQuadrotorDynamics.step.
  cbn [QuadrotorCommands.rotor_rates].
  rewrite !planar_actuation_two. reflexivity.
Qed.

(** * Further properties of the code *)

(** ** Helper lemmas *)

Lemma np_div_ok (x s : R) : s <> 0 -> Np.div x s = Ok (x / s).
Proof.
  intros H. unfold Np.div.
  destruct (Req_dec_T s 0); [contradiction|reflexivity].
Qed.

Lemma np_div_zero (x : R) : Np.div x 0 = NonFinite.
Proof.
  unfold Np.div. destruct (Req_dec_T 0 0); [reflexivity|contradiction].
Qed.

Lemma factor_zero (a b : R) : a <> 0 -> a * b = 0 -> b = 0.
Proof. intros Ha H. apply Rmult_integral in H. tauto. Qed.

Lemma default_k_thrust : Full.k_thrust Full.Params_default <> 0.
Proof. pose proof k_thrust_default_pos. lra. Qed.

Lemma planar_rotor_model_pos (p : Planar.Params) (c : R) :
  0 < Planar.rho p -> 0 < c -> 0 < Planar.rotor_diameter p ->
  0 < Planar.rotor_model p c.
Proof.
  intros Hr Hc Hd. unfold Planar.rotor_model.
  apply Rdiv_lt_0_compat.
  - apply Rmult_lt_0_compat; [apply Rmult_lt_0_compat; assumption|].
    apply pow_lt; assumption.
  - pose proof PI_RGT_0. apply Rmult_lt_0_compat; [lra|]. apply pow_lt; lra.
Qed.

Lemma planar_default_k_thrust : Planar.k_thrust Planar.Params_default <> 0.
Proof.
  assert (0 < Planar.k_thrust Planar.Params_default)
    by (apply planar_rotor_model_pos; cbn; lra).
  lra.
Qed.

(** The planar state derivative in closed form. *)
Lemma planar_state_derivative_value (p : Planar.Params)
  (to_yaw_pitch_roll : Rot3.t -> Np.array)
  (position velocity : Np.array) (q : Rot3.t) (w0 w1 w2 u1 u2 phi : R) :
  Planar.mass p <> 0 -> Planar.inertia p <> 0 ->
  Np.getitem (to_yaw_pitch_roll q) 1 = Ok phi ->
  Planar.PlanarQuadrotorDynamics.state_derivative p to_yaw_pitch_roll
    (QuadrotorState.mk position q velocity [w0; w1; w2]) u1 u2
  = Ok {| QuadrotorState.position := velocity;
          QuadrotorState.velocity :=
            [u1 * -1 * sin phi / Planar.mass p; 0;
             -1 * Planar.g p + u1 * cos phi / Planar.mass p];
          QuadrotorState.orientation := Spec.quaternion_rate q w0 w1 w2;
          QuadrotorState.angular_velocity := [0; u2 / Planar.inertia p; 0] |}.
Proof.
  intros Hm Hi Hphi. unfold Planar.PlanarQuadrotorDynamics.state_derivative.
  cbn [QuadrotorState.orientation QuadrotorState.velocity
       QuadrotorState.angular_velocity].
  rewrite Hphi. cbn [bind].
  rewrite !np_div_ok by assumption. cbn [bind].
  rewrite dRot3_ok. reflexivity.
Qed.

(** The forces of a pure thrust command are its quarter, four times. *)
Lemma unmix_pure_thrust (L k u1 : R) :
  Np.matvec (mixing_inverse L k) [u1; 0; 0; 0]
  = [u1 / 4; u1 / 4; u1 / 4; u1 / 4].
Proof.
  unfold Np.matvec, mixing_inverse, Np.dot. cbn [map Np.zip_with fold_right].
  list_eq; unfold Rdiv; ring.
Qed.

Lemma mix_unmix (L k u1 u2x u2y u2z f1 f2 f3 f4 : R) :
  L <> 0 -> k <> 0 ->
  Np.matvec (mixing_inverse L k) [u1; u2x; u2y; u2z] = [f1; f2; f3; f4] ->
  Spec.mix L k f1 f2 f3 f4 = (u1, [[u2x]; [u2y]; [u2z]]).
Proof.
  intros HL Hk H.
  unfold Np.matvec, mixing_inverse, Np.dot in H.
  cbn [map Np.zip_with fold_right] in H.
  injection H as <- <- <- <-.
  unfold Spec.mix. f_equal; [field; auto|]. list_eq; field; auto.
Qed.

Lemma rate_of_force_nonpositive (kt lo hi f : R) :
  f <= 0 -> 0 <= lo <= hi -> Spec.rate_of_force kt lo hi f = lo.
Proof.
  intros Hf [Hlo Hhi]. unfold Spec.rate_of_force, Spec.clamp.
  rewrite (Rmax_right f 0) by assumption.
  replace (0 / kt) with 0 by (unfold Rdiv; ring).
  rewrite sqrt_0. rewrite Rmax_right by assumption.
  apply Rmin_left. assumption.
Qed.

Lemma clamp_inverted (lo hi x : R) : hi < lo -> Spec.clamp lo hi x = hi.
Proof.
  intros H. unfold Spec.clamp. apply Rmin_right.
  pose proof (Rmax_r x lo). lra.
Qed.

Lemma rate_of_force_saturates (kt lo hi f : R) :
  0 < kt -> lo <= hi -> 0 <= hi -> hi * hi * kt <= f ->
  Spec.rate_of_force kt lo hi f = hi.
Proof.
  intros Hkt Hb Hhi Hf. unfold Spec.rate_of_force, Spec.clamp.
  assert (Hf0 : 0 <= f) by nra.
  rewrite (Rmax_left f 0) by assumption.
  assert (Hs : hi <= sqrt (f / kt)).
  { rewrite <- (sqrt_square hi) by assumption. apply sqrt_le_1_alt.
    apply (Rmult_le_reg_r kt); [assumption|].
    replace (f / kt * kt) with f by (field; lra). assumption. }
  rewrite Rmax_left by lra. apply Rmin_right. assumption.
Qed.

Lemma rate_of_force_unsaturated (kt lo hi f : R) :
  0 < kt -> 0 <= lo -> kt * (lo * lo) <= f <= kt * (hi * hi) -> lo <= hi ->
  Spec.rate_of_force kt lo hi f = sqrt (f / kt)
  /\ kt * (sqrt (f / kt) * sqrt (f / kt)) = f.
Proof.
  intros Hkt Hlo [Hf1 Hf2] Hb.
  assert (Hf0 : 0 <= f) by nra.
  assert (Hq : 0 <= f / kt).
  { apply Rmult_le_pos; [assumption|]. left. apply Rinv_0_lt_compat. assumption. }
  split.
  - unfold Spec.rate_of_force. rewrite (Rmax_left f 0) by assumption.
    apply clamp_inside. split.
    + rewrite <- (sqrt_square lo) by assumption. apply sqrt_le_1_alt.
      apply (Rmult_le_reg_r kt); [assumption|].
      replace (f / kt * kt) with f by (field; lra). lra.
    + rewrite <- (sqrt_square hi) by lra. apply sqrt_le_1_alt.
      apply (Rmult_le_reg_r kt); [assumption|].
      replace (f / kt * kt) with f by (field; lra). lra.
  - rewrite sqrt_sqrt by assumption. field. lra.
Qed.

(** With diagonal gains the thrust command is the PD law on the altitude. *)
Lemma thrust_command_diagonal (p : Full.Params)
  (a b c a' b' c' rate_min rate_max t : R)
  (x y z vx vy vz xd yd zd vxd vyd vzd : R) (q : Rot3.t) (omega : Np.array) :
  Full.Controller.thrust_command p
    (Full.mkControllerParams (Full.diag3 a b c) (Full.diag3 a' b' c')
       rate_min rate_max)
    (TrajectoryState.mk t [xd; yd; zd] [vxd; vyd; vzd])
    (QuadrotorState.mk [x; y; z] q [vx; vy; vz] omega)
  = Ok (Full.mass p * (Full.g p + (c' * (vzd - vz) + c * (zd - z)))).
Proof.
  unfold Full.Controller.thrust_command,
    Full.Controller.commanded_acceleration, Np.add, Np.sub, Np.matvec, Np.dot,
    Full.diag3.
  cbn [Full.K_p Full.K_d TrajectoryState.position TrajectoryState.velocity
       QuadrotorState.position QuadrotorState.velocity map Np.zip_with
       fold_right Np.getitem nth_error bind].
  f_equal. ring.
Qed.

(** The default thrust coefficient is below [rho C_T d^4 / 36]. *)
Lemma k_thrust_default_upper :
  Full.k_thrust Full.Params_default < 1.225 * 0.14553 * (10 * 0.0254) ^ 4 / 36.
Proof.
  pose proof PI_gt_3 as H3.
  unfold Full.k_thrust, Full.rotor_model.
  cbn [Full.rho Full.rotor_diameter Full.static_thrust_coefficient
       Full.Params_default].
  unfold Rdiv. apply Rmult_lt_compat_l; [simpl; lra|].
  apply Rinv_lt_contravar; [simpl; nra|]. simpl. nra.
Qed.

(** ** The quaternion rate *)

(** X1.  For every quaternion and angular velocity [dRot3] returns, and the
    rate it returns is orthogonal to the quaternion. *)
Theorem quaternion_rate_orthogonal (q : Rot3.t) (w0 w1 w2 : R) :
  exists quat_dot,
    dRot3 q [w0; w1; w2] = Ok quat_dot
    /\ Np.dot (Rot3.to_storage q) (Rot3.to_storage quat_dot) = 0.
Proof.
  eexists. split; [apply dRot3_ok|].
  unfold Np.dot, Rot3.to_storage, Spec.quaternion_rate. cbn. field.
Qed.

(** X2.  The squared norm of the rate [dRot3] returns is a quarter of the
    product of the squared norms of the quaternion and of the angular
    velocity. *)
Theorem quaternion_rate_norm (q : Rot3.t) (w0 w1 w2 : R) :
  exists quat_dot,
    dRot3 q [w0; w1; w2] = Ok quat_dot
    /\ Np.dot (Rot3.to_storage quat_dot) (Rot3.to_storage quat_dot)
       = Np.dot (Rot3.to_storage q) (Rot3.to_storage q)
         * Np.dot [w0; w1; w2] [w0; w1; w2] / 4.
Proof.
  eexists. split; [apply dRot3_ok|].
  unfold Np.dot, Rot3.to_storage, Spec.quaternion_rate. cbn. field.
Qed.

(** ** The rotor coefficients *)

(** X3.  The ratio [k = k_thrust / k_torque] the mixing matrix is built
    with is the ratio of the two static coefficients: air density and rotor
    diameter cancel. *)
Theorem mixing_ratio_is_coefficient_ratio (p : Full.Params) :
  Full.rho p <> 0 -> Full.rotor_diameter p <> 0 ->
  Full.static_torque_coefficient p <> 0 ->
  py_div (Full.k_thrust p) (Full.k_torque p)
  = Ok (Full.static_thrust_coefficient p / Full.static_torque_coefficient p).
Proof.
  intros Hr Hd Hc.
  pose proof PI_RGT_0 as Hpi.
  assert (Hk : Full.k_torque p <> 0).
  { unfold Full.k_torque, Full.rotor_model, Rdiv.
    apply Rmult_integral_contrapositive_currified;
      [ apply Rmult_integral_contrapositive_currified;
        [ apply Rmult_integral_contrapositive_currified; assumption
        | apply pow_nonzero; assumption ]
      | apply Rinv_neq_0_compat; simpl; nra ]. }
  rewrite py_div_ok by assumption. f_equal.
  unfold Full.k_thrust, Full.k_torque, Full.rotor_model.
  cbn [pow]. field. repeat split; try assumption; lra.
Qed.

Lemma mixing_ratio_is_coefficient_ratio_witness :
  Full.rho Full.Params_default <> 0
  /\ Full.rotor_diameter Full.Params_default <> 0
  /\ Full.static_torque_coefficient Full.Params_default <> 0
  /\ py_div (Full.k_thrust Full.Params_default)
       (Full.k_torque Full.Params_default)
     = Ok (Full.static_thrust_coefficient Full.Params_default
           / Full.static_torque_coefficient Full.Params_default).
Proof.
  assert (H1 : Full.rho Full.Params_default <> 0) by (cbn; lra).
  assert (H2 : Full.rotor_diameter Full.Params_default <> 0) by (cbn; lra).
  assert (H3 : Full.static_torque_coefficient Full.Params_default <> 0)
    by (cbn; lra).
  split; [exact H1|]. split; [exact H2|]. split; [exact H3|].
  exact (mixing_ratio_is_coefficient_ratio Full.Params_default H1 H2 H3).
Defined.

(** X4.  With a positive air density, positive static coefficients and a
    non-zero rotor diameter, [k_thrust] and [k_torque] are positive. *)
Theorem rotor_coefficients_positive (p : Full.Params) :
  0 < Full.rho p -> Full.rotor_diameter p <> 0 ->
  0 < Full.static_thrust_coefficient p ->
  0 < Full.static_torque_coefficient p ->
  0 < Full.k_thrust p /\ 0 < Full.k_torque p.
Proof.
  intros Hr Hd Ht Hq.
  assert (Hd4 : 0 < Full.rotor_diameter p ^ 4).
  { replace (Full.rotor_diameter p ^ 4)
      with ((Full.rotor_diameter p * Full.rotor_diameter p)
            * (Full.rotor_diameter p * Full.rotor_diameter p)) by ring.
    assert (0 < Full.rotor_diameter p * Full.rotor_diameter p) by nra.
    nra. }
  assert (Hpi : 0 < 4 * PI ^ 2).
  { pose proof PI_RGT_0. simpl. nra. }
  unfold Full.k_thrust, Full.k_torque, Full.rotor_model.
  split; apply Rdiv_lt_0_compat; try assumption;
    apply Rmult_lt_0_compat; try assumption;
    apply Rmult_lt_0_compat; assumption.
Qed.

Lemma rotor_coefficients_positive_witness :
  0 < Full.rho Full.Params_default
  /\ Full.rotor_diameter Full.Params_default <> 0
  /\ 0 < Full.static_thrust_coefficient Full.Params_default
  /\ 0 < Full.static_torque_coefficient Full.Params_default
  /\ 0 < Full.k_thrust Full.Params_default
  /\ 0 < Full.k_torque Full.Params_default.
Proof.
  assert (H1 : 0 < Full.rho Full.Params_default) by (cbn; lra).
  assert (H2 : Full.rotor_diameter Full.Params_default <> 0) by (cbn; lra).
  assert (H3 : 0 < Full.static_thrust_coefficient Full.Params_default)
    by (cbn; lra).
  assert (H4 : 0 < Full.static_torque_coefficient Full.Params_default)
    by (cbn; lra).
  split; [exact H1|]. split; [exact H2|]. split; [exact H3|].
  split; [exact H4|].
  exact (rotor_coefficients_positive Full.Params_default H1 H2 H3 H4).
Defined.

(** ** The forward map *)

(** X5.  The thrust model works entry by entry, does not see the sign of a
    rotor rate and, for a non-negative [k_thrust], never returns a negative
    thrust. *)
Theorem rotor_thrust_even_nonnegative (p : Full.Params)
  (rotor_rates : Np.array) :
  0 <= Full.k_thrust p ->
  Full.FullQuadrotorDynamics.rotor_thrust_model p (map Ropp rotor_rates)
  = Full.FullQuadrotorDynamics.rotor_thrust_model p rotor_rates
  /\ length (Full.FullQuadrotorDynamics.rotor_thrust_model p rotor_rates)
     = length rotor_rates
  /\ Forall (fun F => 0 <= F)
       (Full.FullQuadrotorDynamics.rotor_thrust_model p rotor_rates).
Proof.
  intros Hk. unfold Full.FullQuadrotorDynamics.rotor_thrust_model, Np.scale,
    Np.square.
  split; [|split].
  - rewrite !map_map. apply map_ext. intros r. ring.
  - rewrite !length_map. reflexivity.
  - rewrite !Forall_map. apply Forall_forall. intros r _. nra.
Qed.

Lemma rotor_thrust_even_nonnegative_witness :
  0 <= Full.k_thrust Full.Params_default
  /\ Full.FullQuadrotorDynamics.rotor_thrust_model Full.Params_default
       (map Ropp [1; -2; 3])
     = Full.FullQuadrotorDynamics.rotor_thrust_model Full.Params_default
         [1; -2; 3]
  /\ length (Full.FullQuadrotorDynamics.rotor_thrust_model Full.Params_default
               [1; -2; 3])
     = length [1; -2; 3]
  /\ Forall (fun F => 0 <= F)
       (Full.FullQuadrotorDynamics.rotor_thrust_model Full.Params_default
          [1; -2; 3]).
Proof.
  assert (H : 0 <= Full.k_thrust Full.Params_default)
    by (pose proof k_thrust_default_pos; lra).
  split; [exact H|].
  exact (rotor_thrust_even_nonnegative Full.Params_default [1; -2; 3] H).
Defined.

(** X6.  The full dynamics step raises [ValueError] when the commands do
    not hold exactly four rotor rates, whatever the parameters and before
    anything else is computed. *)
Theorem full_step_needs_four_rates (p : Full.Params)
  (to_state_vector : QuadrotorState.t -> Np.array)
  (from_state_vector : Np.array -> QuadrotorState.t)
  (solve_ivp : (R -> Np.array -> result Np.array) -> R * R -> Np.array ->
               result OdeResult.t)
  (self : QuadrotorDynamicsBase.t) (t : R) (input : QuadrotorCommands.t) :
  length (QuadrotorCommands.rotor_rates input) <> 4%nat ->
  Full.FullQuadrotorDynamics.step p to_state_vector from_state_vector solve_ivp
    self t input = Raised ValueError.
Proof.
  intros Hlen. unfold Full.FullQuadrotorDynamics.step,
    Full.FullQuadrotorDynamics.actuation,
    Full.FullQuadrotorDynamics.rotor_thrust_model, Np.scale, Np.square.
  destruct (QuadrotorCommands.rotor_rates input) as [|a [|b [|c [|d [|e l]]]]];
    cbn in *; try reflexivity.
  contradiction.
Qed.

Lemma full_step_needs_four_rates_witness :
  length (QuadrotorCommands.rotor_rates (QuadrotorCommands.mk [400; 400; 400]))
  <> 4%nat
  /\ Full.FullQuadrotorDynamics.step Params_no_torque StandIn.to_state_vector
       StandIn.from_state_vector StandIn.euler_ivp
       (QuadrotorDynamicsBase.mk state_at_rest 0.01) 0
       (QuadrotorCommands.mk [400; 400; 400])
     = Raised ValueError.
Proof.
  assert (H : length (QuadrotorCommands.rotor_rates
                        (QuadrotorCommands.mk [400; 400; 400])) <> 4%nat)
    by (cbn; lia).
  split; [exact H|].
  exact (full_step_needs_four_rates Params_no_torque StandIn.to_state_vector
           StandIn.from_state_vector StandIn.euler_ivp
           (QuadrotorDynamicsBase.mk state_at_rest 0.01) 0
           (QuadrotorCommands.mk [400; 400; 400]) H).
Defined.

(** X7.  The planar dynamics step raises [ValueError] when the commands
    hold fewer than two rotor rates. *)
Theorem planar_step_needs_two_rates (p : Planar.Params)
  (to_state_vector : QuadrotorState.t -> Np.array)
  (from_state_vector : Np.array -> QuadrotorState.t)
  (solve_ivp : (R -> Np.array -> result Np.array) -> R * R -> Np.array ->
               result OdeResult.t)
  (to_yaw_pitch_roll : Rot3.t -> Np.array)
  (self : QuadrotorDynamicsBase.t) (t : R) (input : QuadrotorCommands.t) :
  (length (QuadrotorCommands.rotor_rates input) < 2)%nat ->
  Planar.PlanarQuadrotorDynamics.step p to_state_vector from_state_vector
    solve_ivp to_yaw_pitch_roll self t input = Raised ValueError.
Proof.
  intros Hlen. unfold Planar.PlanarQuadrotorDynamics.step,
    Planar.PlanarQuadrotorDynamics.actuation,
    Planar.PlanarQuadrotorDynamics.rotor_thrust_model, Np.scale, Np.square.
  destruct (QuadrotorCommands.rotor_rates input) as [|a [|b l]];
    cbn in *; try reflexivity.
  lia.
Qed.

Lemma planar_step_needs_two_rates_witness :
  (length (QuadrotorCommands.rotor_rates (QuadrotorCommands.mk [400%R]))
   < 2)%nat
  /\ Planar.PlanarQuadrotorDynamics.step Planar.Params_default
       StandIn.to_state_vector StandIn.from_state_vector StandIn.euler_ivp
       level_yaw_pitch_roll (QuadrotorDynamicsBase.mk state_at_rest 0.01) 0
       (QuadrotorCommands.mk [400])
     = Raised ValueError.
Proof.
  assert (H : (length (QuadrotorCommands.rotor_rates
                         (QuadrotorCommands.mk [400%R])) < 2)%nat)
    by (cbn; lia).
  split; [exact H|].
  exact (planar_step_needs_two_rates Planar.Params_default
           StandIn.to_state_vector StandIn.from_state_vector StandIn.euler_ivp
           level_yaw_pitch_roll (QuadrotorDynamicsBase.mk state_at_rest 0.01) 0
           (QuadrotorCommands.mk [400]) H).
Defined.

(** X8.  The full forward map gives the total thrust
    [k_thrust * (r1^2+r2^2+r3^2+r4^2)], and its torque is zero exactly when
    the four rotor rates have the same magnitude. *)
Theorem torque_free_iff_equal_thrusts (p : Full.Params) (r1 r2 r3 r4 : R) :
  Full.k_thrust p <> 0 -> Full.k_torque p <> 0 -> Full.arm_length p <> 0 ->
  exists u1 u2,
    Full.FullQuadrotorDynamics.actuation p [r1; r2; r3; r4] = Ok (u1, u2)
    /\ u1 = Full.k_thrust p * (r1 * r1 + r2 * r2 + r3 * r3 + r4 * r4)
    /\ (u2 = [[0]; [0]; [0]]
        <-> r1 * r1 = r2 * r2 /\ r2 * r2 = r3 * r3 /\ r3 * r3 = r4 * r4).
Proof.
  intros Hkt Hkq HL.
  assert (Hk : Full.k_thrust p / Full.k_torque p <> 0).
  { unfold Rdiv. apply Rmult_integral_contrapositive_currified; [assumption|].
    apply Rinv_neq_0_compat; assumption. }
  do 2 eexists. split; [apply actuation_value; assumption|].
  split; [ring|].
  set (kt := Full.k_thrust p) in *. set (L := Full.arm_length p) in *.
  set (k := kt / Full.k_torque p) in *.
  split.
  - intros H. injection H as Hx Hy Hz.
    apply (factor_zero L) in Hx; [|assumption].
    apply (factor_zero L) in Hy; [|assumption].
    apply (factor_zero k) in Hz; [|assumption].
    assert (H24 : kt * (r2 * r2 - r4 * r4) = 0) by lra.
    assert (H31 : kt * (r3 * r3 - r1 * r1) = 0) by lra.
    assert (H12 : kt * (r1 * r1 - r2 * r2) = 0) by lra.
    apply (factor_zero kt) in H24; [|assumption].
    apply (factor_zero kt) in H31; [|assumption].
    apply (factor_zero kt) in H12; [|assumption].
    lra.
  - intros (H12 & H23 & H34).
    rewrite H12, H23, H34. list_eq; ring.
Qed.

Lemma torque_free_iff_equal_thrusts_witness :
  Full.k_thrust Full.Params_default <> 0
  /\ Full.k_torque Full.Params_default <> 0
  /\ Full.arm_length Full.Params_default <> 0
  /\ exists u1 u2,
      Full.FullQuadrotorDynamics.actuation Full.Params_default
        [300; -300; 300; 300] = Ok (u1, u2)
      /\ u1 = Full.k_thrust Full.Params_default
              * (300 * 300 + -300 * -300 + 300 * 300 + 300 * 300)
      /\ (u2 = [[0]; [0]; [0]]
          <-> 300 * 300 = -300 * -300 /\ -300 * -300 = 300 * 300
              /\ 300 * 300 = 300 * 300).
Proof.
  split; [exact default_k_thrust|].
  split; [exact default_k_torque|].
  split; [exact default_arm_length|].
  exact (torque_free_iff_equal_thrusts Full.Params_default 300 (-300) 300 300
           default_k_thrust default_k_torque default_arm_length).
Defined.

(** X9.  The planar forward map gives the thrust [k_thrust * (r0^2+r1^2)]
    of the first two rotors, and its torque is zero exactly when these two
    rates have the same magnitude. *)
Theorem planar_torque_free_iff (p : Planar.Params) (r0 r1 : R)
  (rest : Np.array) :
  Planar.k_thrust p <> 0 -> Planar.arm_length p <> 0 ->
  exists u1 u2,
    Planar.PlanarQuadrotorDynamics.actuation p (r0 :: r1 :: rest) = Ok (u1, u2)
    /\ u1 = Planar.k_thrust p * (r0 * r0 + r1 * r1)
    /\ (u2 = 0 <-> r0 * r0 = r1 * r1).
Proof.
  intros Hkt HL. do 2 eexists.
  split; [apply planar_actuation_two|].
  split; [ring|].
  split.
  - intros H.
    assert (H' : (Planar.arm_length p / 2)
                 * (Planar.k_thrust p * (r0 * r0 - r1 * r1)) = 0)
      by (rewrite <- H; ring).
    apply factor_zero in H'; [|lra].
    apply factor_zero in H'; [|assumption]. lra.
  - intros H. rewrite H. ring.
Qed.

Lemma planar_torque_free_iff_witness :
  Planar.k_thrust Planar.Params_default <> 0
  /\ Planar.arm_length Planar.Params_default <> 0
  /\ exists u1 u2,
      Planar.PlanarQuadrotorDynamics.actuation Planar.Params_default
        [600; 500; 0; 0] = Ok (u1, u2)
      /\ u1 = Planar.k_thrust Planar.Params_default * (600 * 600 + 500 * 500)
      /\ (u2 = 0 <-> 600 * 600 = 500 * 500).
Proof.
  assert (HL : Planar.arm_length Planar.Params_default <> 0) by (cbn; lra).
  split; [exact planar_default_k_thrust|].
  split; [exact HL|].
  exact (planar_torque_free_iff Planar.Params_default 600 500 [0; 0]
           planar_default_k_thrust HL).
Defined.

(** ** The state derivatives *)

Lemma identity_unit :
  Np.dot (Rot3.to_storage Rot3.identity) (Rot3.to_storage Rot3.identity) = 1.
Proof. unfold Np.dot. cbn. lra. Qed.

Lemma planar_default_mass : Planar.mass Planar.Params_default <> 0.
Proof. cbn. lra. Qed.

Lemma planar_default_inertia : Planar.inertia Planar.Params_default <> 0.
Proof. cbn. lra. Qed.

Lemma level_pitch (q : Rot3.t) : Np.getitem (level_yaw_pitch_roll q) 1 = Ok 0.
Proof. reflexivity. Qed.

(** X10.  Without thrust ([u1 = 0]) the full state derivative is free fall
    in every orientation and for every angular velocity and torque: the
    position rate is the velocity and the velocity rate is [[0, 0, -g]]. *)
Theorem free_fall_without_thrust (p : Full.Params)
  (position velocity : Np.array) (q : Rot3.t)
  (w0 w1 w2 u2x u2y u2z : R) :
  Full.mass p <> 0 -> is_3x3 (Full.inertia p) ->
  Np.det (Full.inertia p) <> 0 ->
  exists d,
    Full.FullQuadrotorDynamics.state_derivative p
      (QuadrotorState.mk position q velocity [w0; w1; w2]) 0
      [[u2x]; [u2y]; [u2z]] = Ok d
    /\ QuadrotorState.position d = velocity
    /\ QuadrotorState.velocity d = [0; 0; - Full.g p].
Proof.
  intros Hm H33 Hdet.
  destruct (inv_ok _ (is_3x3_square _ H33) Hdet) as [I_inv HI].
  eexists.
  split; [apply (state_derivative_value _ _ _ _ _ _ _ _ _ _ _ I_inv);
          assumption|].
  split; [reflexivity|].
  cbn [QuadrotorState.velocity].
  unfold Spec.velocity_rate, Spec.rotation_matrix, Np.add, Np.matvec, Np.dot.
  cbn [map Np.zip_with fold_right]. list_eq; field; assumption.
Qed.

Lemma free_fall_without_thrust_witness :
  Full.mass Full.Params_default <> 0
  /\ is_3x3 (Full.inertia Full.Params_default)
  /\ Np.det (Full.inertia Full.Params_default) <> 0
  /\ exists d,
      Full.FullQuadrotorDynamics.state_derivative Full.Params_default
        (QuadrotorState.mk [0; 0; 5] (Rot3.mk 1 0 0 0) [1; 2; 3] [0; 1; 0]) 0
        [[0]; [0]; [0]] = Ok d
      /\ QuadrotorState.position d = [1; 2; 3]
      /\ QuadrotorState.velocity d = [0; 0; - Full.g Full.Params_default].
Proof.
  split; [exact default_mass|].
  split; [exact default_inertia_3x3|].
  split; [exact default_inertia_det|].
  exact (free_fall_without_thrust Full.Params_default [0; 0; 5] [1; 2; 3]
           (Rot3.mk 1 0 0 0) 0 1 0 0 0 0
           default_mass default_inertia_3x3 default_inertia_det).
Defined.

(** X11.  At zero angular velocity the gyroscopic term vanishes: the angular
    rate is the inverse inertia applied to the torque, and the orientation
    rate is the zero quaternion. *)
Theorem no_spin_no_gyroscopic_term (p : Full.Params)
  (position velocity : Np.array) (q : Rot3.t) (u1 u2x u2y u2z : R) :
  Full.mass p <> 0 -> is_3x3 (Full.inertia p) ->
  Np.det (Full.inertia p) <> 0 ->
  exists I_inv d,
    Np.inv (Full.inertia p) = Ok I_inv
    /\ Full.FullQuadrotorDynamics.state_derivative p
         (QuadrotorState.mk position q velocity [0; 0; 0]) u1
         [[u2x]; [u2y]; [u2z]] = Ok d
    /\ QuadrotorState.angular_velocity d = Np.matvec I_inv [u2x; u2y; u2z]
    /\ QuadrotorState.orientation d = Rot3.mk 0 0 0 0.
Proof.
  intros Hm H33 Hdet.
  destruct (inv_ok _ (is_3x3_square _ H33) Hdet) as [I_inv HI].
  exists I_inv. eexists. split; [exact HI|].
  split; [apply (state_derivative_value _ _ _ _ _ _ _ _ _ _ _ I_inv);
          assumption|].
  cbn [QuadrotorState.angular_velocity QuadrotorState.orientation].
  split.
  - unfold Spec.angular_velocity_rate. f_equal.
    unfold Spec.cross3, Np.sub. cbn [Np.zip_with nth]. list_eq; ring.
  - unfold Spec.quaternion_rate. f_equal; field.
Qed.

Lemma no_spin_no_gyroscopic_term_witness :
  Full.mass Full.Params_default <> 0
  /\ is_3x3 (Full.inertia Full.Params_default)
  /\ Np.det (Full.inertia Full.Params_default) <> 0
  /\ exists I_inv d,
      Np.inv (Full.inertia Full.Params_default) = Ok I_inv
      /\ Full.FullQuadrotorDynamics.state_derivative Full.Params_default
           (QuadrotorState.mk [0; 0; 5] Rot3.identity [1; 2; 3] [0; 0; 0]) 13
           [[1]; [2]; [3]] = Ok d
      /\ QuadrotorState.angular_velocity d = Np.matvec I_inv [1; 2; 3]
      /\ QuadrotorState.orientation d = Rot3.mk 0 0 0 0.
Proof.
  split; [exact default_mass|].
  split; [exact default_inertia_3x3|].
  split; [exact default_inertia_det|].
  exact (no_spin_no_gyroscopic_term Full.Params_default [0; 0; 5] [1; 2; 3]
           Rot3.identity 13 1 2 3
           default_mass default_inertia_3x3 default_inertia_det).
Defined.

(** X12.  For a unit quaternion the thrust contributes an acceleration of
    magnitude [u1 / mass] in the full model, whatever the orientation: the
    velocity rate [a] satisfies
    [a_x^2 + a_y^2 + (a_z + g)^2 = (u1 / mass)^2]. *)
Theorem thrust_acceleration_magnitude (p : Full.Params)
  (position velocity : Np.array) (q : Rot3.t)
  (w0 w1 w2 u1 u2x u2y u2z : R) :
  Full.mass p <> 0 -> is_3x3 (Full.inertia p) ->
  Np.det (Full.inertia p) <> 0 ->
  Np.dot (Rot3.to_storage q) (Rot3.to_storage q) = 1 ->
  exists d a_x a_y a_z,
    Full.FullQuadrotorDynamics.state_derivative p
      (QuadrotorState.mk position q velocity [w0; w1; w2]) u1
      [[u2x]; [u2y]; [u2z]] = Ok d
    /\ QuadrotorState.velocity d = [a_x; a_y; a_z]
    /\ a_x * a_x + a_y * a_y + (a_z + Full.g p) * (a_z + Full.g p)
       = (u1 / Full.mass p) * (u1 / Full.mass p).
Proof.
  intros Hm H33 Hdet Hunit.
  destruct (inv_ok _ (is_3x3_square _ H33) Hdet) as [I_inv HI].
  eexists. do 3 eexists.
  split; [apply (state_derivative_value _ _ _ _ _ _ _ _ _ _ _ I_inv);
          assumption|].
  cbn [QuadrotorState.velocity].
  unfold Spec.velocity_rate, Spec.rotation_matrix, Np.add, Np.matvec, Np.dot.
  cbn [map Np.zip_with fold_right].
  split; [reflexivity|].
  unfold Np.dot, Rot3.to_storage in Hunit.
  cbn [Np.zip_with fold_right] in Hunit.
  destruct q as [x y z w]. cbn [Rot3.x Rot3.y Rot3.z Rot3.w] in *.
  assert (Hw : w * w = 1 - x * x - y * y - z * z) by lra.
  field_simplify_eq; [|assumption].
  replace (w ^ 2) with (w * w) by ring.
  rewrite Hw. ring.
Qed.

Lemma thrust_acceleration_magnitude_witness :
  Full.mass Full.Params_default <> 0
  /\ is_3x3 (Full.inertia Full.Params_default)
  /\ Np.det (Full.inertia Full.Params_default) <> 0
  /\ Np.dot (Rot3.to_storage Rot3.identity) (Rot3.to_storage Rot3.identity) = 1
  /\ exists d a_x a_y a_z,
      Full.FullQuadrotorDynamics.state_derivative Full.Params_default
        (QuadrotorState.mk [0; 0; 5] Rot3.identity [1; 2; 3] [0; 1; 0]) 13
        [[1]; [2]; [3]] = Ok d
      /\ QuadrotorState.velocity d = [a_x; a_y; a_z]
      /\ a_x * a_x + a_y * a_y
         + (a_z + Full.g Full.Params_default)
           * (a_z + Full.g Full.Params_default)
         = (13 / Full.mass Full.Params_default)
           * (13 / Full.mass Full.Params_default).
Proof.
  split; [exact default_mass|].
  split; [exact default_inertia_3x3|].
  split; [exact default_inertia_det|].
  split; [exact identity_unit|].
  exact (thrust_acceleration_magnitude Full.Params_default [0; 0; 5] [1; 2; 3]
           Rot3.identity 0 1 0 13 1 2 3
           default_mass default_inertia_3x3 default_inertia_det identity_unit).
Defined.

(** X13.  In the planar model the thrust contributes an acceleration of
    magnitude [u1 / mass] at every pitch angle, the lateral velocity rate is
    zero and the angular rate is [[0, u2 / inertia, 0]]. *)
Theorem planar_thrust_acceleration_magnitude (p : Planar.Params)
  (to_yaw_pitch_roll : Rot3.t -> Np.array)
  (position velocity : Np.array) (q : Rot3.t) (w0 w1 w2 u1 u2 phi : R) :
  Planar.mass p <> 0 -> Planar.inertia p <> 0 ->
  Np.getitem (to_yaw_pitch_roll q) 1 = Ok phi ->
  exists d a_x a_z,
    Planar.PlanarQuadrotorDynamics.state_derivative p to_yaw_pitch_roll
      (QuadrotorState.mk position q velocity [w0; w1; w2]) u1 u2 = Ok d
    /\ QuadrotorState.position d = velocity
    /\ QuadrotorState.velocity d = [a_x; 0; a_z]
    /\ a_x * a_x + (a_z + Planar.g p) * (a_z + Planar.g p)
       = (u1 / Planar.mass p) * (u1 / Planar.mass p)
    /\ QuadrotorState.angular_velocity d = [0; u2 / Planar.inertia p; 0].
Proof.
  intros Hm Hi Hphi. do 3 eexists.
  split; [apply planar_state_derivative_value; eassumption|].
  split; [reflexivity|]. split; [reflexivity|].
  split; [|reflexivity].
  pose proof (sin2_cos2 phi) as H. unfold Rsqr in H.
  field_simplify_eq; [|assumption].
  replace (sin phi ^ 2) with (1 - cos phi * cos phi) by (rewrite <- H; ring).
  ring.
Qed.

Lemma planar_thrust_acceleration_magnitude_witness :
  Planar.mass Planar.Params_default <> 0
  /\ Planar.inertia Planar.Params_default <> 0
  /\ Np.getitem (level_yaw_pitch_roll Rot3.identity) 1 = Ok 0
  /\ exists d a_x a_z,
      Planar.PlanarQuadrotorDynamics.state_derivative Planar.Params_default
        level_yaw_pitch_roll
        (QuadrotorState.mk [0; 0; 5] Rot3.identity [1; 2; 3] [0; 1; 0]) 13 2
      = Ok d
      /\ QuadrotorState.position d = [1; 2; 3]
      /\ QuadrotorState.velocity d = [a_x; 0; a_z]
      /\ a_x * a_x
         + (a_z + Planar.g Planar.Params_default)
           * (a_z + Planar.g Planar.Params_default)
         = (13 / Planar.mass Planar.Params_default)
           * (13 / Planar.mass Planar.Params_default)
      /\ QuadrotorState.angular_velocity d
         = [0; 2 / Planar.inertia Planar.Params_default; 0].
Proof.
  split; [exact planar_default_mass|].
  split; [exact planar_default_inertia|].
  split; [exact (level_pitch Rot3.identity)|].
  exact (planar_thrust_acceleration_magnitude Planar.Params_default
           level_yaw_pitch_roll [0; 0; 5] [1; 2; 3] Rot3.identity 0 1 0 13 2 0
           planar_default_mass planar_default_inertia
           (level_pitch Rot3.identity)).
Defined.

(** X14.  Driven by [EmptyController], the planar dynamics see no thrust
    and no torque, and the state derivative is free fall: velocity rate
    [[0, 0, -g]] and angular rate [[0, 0, 0]], at every pitch angle. *)
Theorem planar_free_fall_under_empty_controller (A : Type) (args : A)
  (p : Planar.Params) (to_yaw_pitch_roll : Rot3.t -> Np.array)
  (position velocity : Np.array) (q : Rot3.t) (w0 w1 w2 phi : R) :
  Planar.mass p <> 0 -> Planar.inertia p <> 0 ->
  Np.getitem (to_yaw_pitch_roll q) 1 = Ok phi ->
  exists u1 u2 d,
    Planar.PlanarQuadrotorDynamics.actuation p
      (QuadrotorCommands.rotor_rates (Planar.EmptyController.step args))
    = Ok (u1, u2)
    /\ u1 = 0 /\ u2 = 0
    /\ Planar.PlanarQuadrotorDynamics.state_derivative p to_yaw_pitch_roll
         (QuadrotorState.mk position q velocity [w0; w1; w2]) u1 u2 = Ok d
    /\ QuadrotorState.position d = velocity
    /\ QuadrotorState.velocity d = [0; 0; - Planar.g p]
    /\ QuadrotorState.angular_velocity d = [0; 0; 0].
Proof.
  intros Hm Hi Hphi. do 3 eexists.
  unfold Planar.EmptyController.step. cbn [QuadrotorCommands.rotor_rates].
  split; [apply planar_actuation_two|].
  split; [ring|]. split; [ring|].
  split; [apply planar_state_derivative_value; eassumption|].
  split; [reflexivity|].
  cbn [QuadrotorState.velocity QuadrotorState.angular_velocity].
  split; list_eq; field; assumption.
Qed.

Lemma planar_free_fall_under_empty_controller_witness :
  Planar.mass Planar.Params_default <> 0
  /\ Planar.inertia Planar.Params_default <> 0
  /\ Np.getitem (level_yaw_pitch_roll Rot3.identity) 1 = Ok 0
  /\ exists u1 u2 d,
      Planar.PlanarQuadrotorDynamics.actuation Planar.Params_default
        (QuadrotorCommands.rotor_rates (Planar.EmptyController.step tt))
      = Ok (u1, u2)
      /\ u1 = 0 /\ u2 = 0
      /\ Planar.PlanarQuadrotorDynamics.state_derivative Planar.Params_default
           level_yaw_pitch_roll
           (QuadrotorState.mk [0; 0; 5] Rot3.identity [1; 2; 3] [0; 1; 0])
           u1 u2 = Ok d
      /\ QuadrotorState.position d = [1; 2; 3]
      /\ QuadrotorState.velocity d = [0; 0; - Planar.g Planar.Params_default]
      /\ QuadrotorState.angular_velocity d = [0; 0; 0].
Proof.
  split; [exact planar_default_mass|].
  split; [exact planar_default_inertia|].
  split; [exact (level_pitch Rot3.identity)|].
  exact (planar_free_fall_under_empty_controller unit tt Planar.Params_default
           level_yaw_pitch_roll [0; 0; 5] [1; 2; 3] Rot3.identity 0 1 0 0
           planar_default_mass planar_default_inertia
           (level_pitch Rot3.identity)).
Defined.

(** X15.  The planar state derivative keeps a planar state planar: for a
    quaternion about the y axis and an angular velocity along y, the
    orientation rate has zero x and z parts, the velocity rate has no y part
    and the angular rate has no x or z part. *)
Theorem planar_motion_stays_planar (p : Planar.Params)
  (to_yaw_pitch_roll : Rot3.t -> Np.array)
  (position velocity : Np.array) (q_y q_w w u1 u2 phi : R) :
  Planar.mass p <> 0 -> Planar.inertia p <> 0 ->
  Np.getitem (to_yaw_pitch_roll (Rot3.mk 0 q_y 0 q_w)) 1 = Ok phi ->
  exists d,
    Planar.PlanarQuadrotorDynamics.state_derivative p to_yaw_pitch_roll
      (QuadrotorState.mk position (Rot3.mk 0 q_y 0 q_w) velocity [0; w; 0])
      u1 u2 = Ok d
    /\ Rot3.x (QuadrotorState.orientation d) = 0
    /\ Rot3.z (QuadrotorState.orientation d) = 0
    /\ Rot3.y (QuadrotorState.orientation d) = q_w * w / 2
    /\ Rot3.w (QuadrotorState.orientation d) = - q_y * w / 2
    /\ nth 1 (QuadrotorState.velocity d) 0 = 0
    /\ nth 0 (QuadrotorState.angular_velocity d) 0 = 0
    /\ nth 2 (QuadrotorState.angular_velocity d) 0 = 0.
Proof.
  intros Hm Hi Hphi. eexists.
  split; [apply planar_state_derivative_value; eassumption|].
  cbn [QuadrotorState.orientation QuadrotorState.velocity
       QuadrotorState.angular_velocity nth Spec.quaternion_rate
       Rot3.x Rot3.y Rot3.z Rot3.w].
  repeat split; try reflexivity; field.
Qed.

Lemma planar_motion_stays_planar_witness :
  Planar.mass Planar.Params_default <> 0
  /\ Planar.inertia Planar.Params_default <> 0
  /\ Np.getitem (level_yaw_pitch_roll (Rot3.mk 0 0 0 1)) 1 = Ok 0
  /\ exists d,
      Planar.PlanarQuadrotorDynamics.state_derivative Planar.Params_default
        level_yaw_pitch_roll
        (QuadrotorState.mk [0; 0; 5] (Rot3.mk 0 0 0 1) [1; 0; 3] [0; 2; 0])
        13 2 = Ok d
      /\ Rot3.x (QuadrotorState.orientation d) = 0
      /\ Rot3.z (QuadrotorState.orientation d) = 0
      /\ Rot3.y (QuadrotorState.orientation d) = 1 * 2 / 2
      /\ Rot3.w (QuadrotorState.orientation d) = - 0 * 2 / 2
      /\ nth 1 (QuadrotorState.velocity d) 0 = 0
      /\ nth 0 (QuadrotorState.angular_velocity d) 0 = 0
      /\ nth 2 (QuadrotorState.angular_velocity d) 0 = 0.
Proof.
  split; [exact planar_default_mass|].
  split; [exact planar_default_inertia|].
  split; [exact (level_pitch (Rot3.mk 0 0 0 1))|].
  exact (planar_motion_stays_planar Planar.Params_default
           level_yaw_pitch_roll [0; 0; 5] [1; 0; 3] 0 1 2 13 2 0
           planar_default_mass planar_default_inertia
           (level_pitch (Rot3.mk 0 0 0 1))).
Defined.

(** ** The controller *)

Lemma default_rate_bounds_nonneg :
  0 <= Full.rotor_rate_min Full.ControllerParams_default
  <= Full.rotor_rate_max Full.ControllerParams_default.
Proof. cbn. lra. Qed.

Lemma inverted_rate_bounds :
  Full.rotor_rate_max ControllerParams_inverted
  < Full.rotor_rate_min ControllerParams_inverted.
Proof. cbn. lra. Qed.

Lemma default_unsaturated_forces :
  Forall (fun f => Full.k_thrust Full.Params_default
                   * (Full.rotor_rate_min Full.ControllerParams_default
                      * Full.rotor_rate_min Full.ControllerParams_default)
                   <= f
                   <= Full.k_thrust Full.Params_default
                      * (Full.rotor_rate_max Full.ControllerParams_default
                         * Full.rotor_rate_max Full.ControllerParams_default))
    (Np.matvec (mixing_inverse (Full.arm_length Full.Params_default)
                  (Full.k_thrust Full.Params_default
                   / Full.k_torque Full.Params_default))
       [4 * Full.k_thrust Full.Params_default * (300 * 300); 0; 0; 0]).
Proof.
  rewrite unmix_pure_thrust.
  pose proof k_thrust_default_pos as Hk.
  cbn [Full.rotor_rate_min Full.rotor_rate_max Full.ControllerParams_default].
  repeat constructor; nra.
Qed.

(** X16.  A thrust command that is zero or negative, with no torque, makes
    [rotor_rates_from_u] return the minimum rate for all four rotors: the
    negative forces are floored to zero and the zero rates raised to
    [rotor_rate_min]. *)
Theorem nonpositive_thrust_command_idles (p : Full.Params)
  (cp : Full.ControllerParams) (u1 : R) :
  0 < Full.k_thrust p -> Full.k_torque p <> 0 -> Full.arm_length p <> 0 ->
  0 <= Full.rotor_rate_min cp <= Full.rotor_rate_max cp ->
  u1 <= 0 ->
  Full.Controller.rotor_rates_from_u p cp [u1; 0; 0; 0]
  = Ok [Full.rotor_rate_min cp; Full.rotor_rate_min cp;
        Full.rotor_rate_min cp; Full.rotor_rate_min cp].
Proof.
  intros Hkt Hkq HL Hb Hu.
  rewrite rotor_rates_from_u_value by assumption.
  rewrite unmix_pure_thrust. cbn [map].
  rewrite rate_of_force_nonpositive by (try assumption; lra).
  reflexivity.
Qed.

Lemma nonpositive_thrust_command_idles_witness :
  0 < Full.k_thrust Full.Params_default
  /\ Full.k_torque Full.Params_default <> 0
  /\ Full.arm_length Full.Params_default <> 0
  /\ 0 <= Full.rotor_rate_min Full.ControllerParams_default
     <= Full.rotor_rate_max Full.ControllerParams_default
  /\ -5 <= 0
  /\ Full.Controller.rotor_rates_from_u Full.Params_default
       Full.ControllerParams_default [-5; 0; 0; 0]
     = Ok [Full.rotor_rate_min Full.ControllerParams_default;
           Full.rotor_rate_min Full.ControllerParams_default;
           Full.rotor_rate_min Full.ControllerParams_default;
           Full.rotor_rate_min Full.ControllerParams_default].
Proof.
  assert (H : -5 <= 0) by lra.
  split; [exact k_thrust_default_pos|].
  split; [exact default_k_torque|].
  split; [exact default_arm_length|].
  split; [exact default_rate_bounds_nonneg|].
  split; [exact H|].
  exact (nonpositive_thrust_command_idles Full.Params_default
           Full.ControllerParams_default (-5) k_thrust_default_pos
           default_k_torque default_arm_length default_rate_bounds_nonneg H).
Defined.

(** X17.  With the rate bounds the wrong way round
    ([rotor_rate_max < rotor_rate_min]) the two limit tests of
    [rotor_rates_from_u] leave every rotor at [rotor_rate_max], whatever the
    command. *)
Theorem inverted_bounds_give_rate_max (p : Full.Params)
  (cp : Full.ControllerParams) (u1 u2x u2y u2z : R) :
  0 < Full.k_thrust p -> Full.k_torque p <> 0 -> Full.arm_length p <> 0 ->
  Full.rotor_rate_max cp < Full.rotor_rate_min cp ->
  Full.Controller.rotor_rates_from_u p cp [u1; u2x; u2y; u2z]
  = Ok [Full.rotor_rate_max cp; Full.rotor_rate_max cp;
        Full.rotor_rate_max cp; Full.rotor_rate_max cp].
Proof.
  intros Hkt Hkq HL Hb.
  rewrite rotor_rates_from_u_value by assumption.
  unfold Np.matvec, mixing_inverse. cbn [map]. unfold Spec.rate_of_force.
  rewrite !clamp_inverted by assumption. reflexivity.
Qed.

Lemma inverted_bounds_give_rate_max_witness :
  0 < Full.k_thrust Full.Params_default
  /\ Full.k_torque Full.Params_default <> 0
  /\ Full.arm_length Full.Params_default <> 0
  /\ Full.rotor_rate_max ControllerParams_inverted
     < Full.rotor_rate_min ControllerParams_inverted
  /\ Full.Controller.rotor_rates_from_u Full.Params_default
       ControllerParams_inverted [13; 1; 2; 3]
     = Ok [Full.rotor_rate_max ControllerParams_inverted;
           Full.rotor_rate_max ControllerParams_inverted;
           Full.rotor_rate_max ControllerParams_inverted;
           Full.rotor_rate_max ControllerParams_inverted].
Proof.
  split; [exact k_thrust_default_pos|].
  split; [exact default_k_torque|].
  split; [exact default_arm_length|].
  split; [exact inverted_rate_bounds|].
  exact (inverted_bounds_give_rate_max Full.Params_default
           ControllerParams_inverted 13 1 2 3 k_thrust_default_pos
           default_k_torque default_arm_length inverted_rate_bounds).
Defined.

(** X18.  Whenever the thrust command is computed, [Controller.step]
    commands the same rate to all four rotors, the limited rate of a quarter
    of the thrust. *)
Theorem controller_commands_equal_rates (p : Full.Params)
  (cp : Full.ControllerParams) (t : R) (trajectory : TrajectoryState.t)
  (state : QuadrotorState.t) (u_1 : R) :
  0 < Full.k_thrust p -> Full.k_torque p <> 0 -> Full.arm_length p <> 0 ->
  Full.Controller.thrust_command p cp trajectory state = Ok u_1 ->
  exists rate,
    Full.Controller.step p cp t trajectory state
    = Ok (QuadrotorCommands.mk [rate; rate; rate; rate])
    /\ rate = Spec.rate_of_force (Full.k_thrust p) (Full.rotor_rate_min cp)
                (Full.rotor_rate_max cp) (u_1 / 4).
Proof.
  intros Hkt Hkq HL Hu. eexists. split; [|reflexivity].
  unfold Full.Controller.step. rewrite Hu. cbn [bind].
  rewrite rotor_rates_from_u_value by assumption.
  rewrite unmix_pure_thrust. reflexivity.
Qed.

Lemma controller_commands_equal_rates_witness :
  0 < Full.k_thrust Full.Params_default
  /\ Full.k_torque Full.Params_default <> 0
  /\ Full.arm_length Full.Params_default <> 0
  /\ Full.Controller.thrust_command Full.Params_default
       (Full.mkControllerParams (Full.diag3 0 0 100) (Full.diag3 0 0 20)
          180 600)
       (TrajectoryState.mk 2 [0; 0; 1] [0; 0; 0])
       (QuadrotorState.mk [0; 0; 0] Rot3.identity [0; 0; 0] [0; 0; 0])
     = Ok (Full.mass Full.Params_default
           * (Full.g Full.Params_default + (20 * (0 - 0) + 100 * (1 - 0))))
  /\ exists rate,
      Full.Controller.step Full.Params_default
        (Full.mkControllerParams (Full.diag3 0 0 100) (Full.diag3 0 0 20)
           180 600) 2
        (TrajectoryState.mk 2 [0; 0; 1] [0; 0; 0])
        (QuadrotorState.mk [0; 0; 0] Rot3.identity [0; 0; 0] [0; 0; 0])
      = Ok (QuadrotorCommands.mk [rate; rate; rate; rate])
      /\ rate = Spec.rate_of_force (Full.k_thrust Full.Params_default)
                  (Full.rotor_rate_min
                     (Full.mkControllerParams (Full.diag3 0 0 100)
                        (Full.diag3 0 0 20) 180 600))
                  (Full.rotor_rate_max
                     (Full.mkControllerParams (Full.diag3 0 0 100)
                        (Full.diag3 0 0 20) 180 600))
                  (Full.mass Full.Params_default
                   * (Full.g Full.Params_default
                      + (20 * (0 - 0) + 100 * (1 - 0))) / 4).
Proof.
  split; [exact k_thrust_default_pos|].
  split; [exact default_k_torque|].
  split; [exact default_arm_length|].
  split;
    [exact (thrust_command_diagonal Full.Params_default 0 0 100 0 0 20 180 600
              2 0 0 0 0 0 0 0 0 1 0 0 0 Rot3.identity [0; 0; 0])|].
  exact (controller_commands_equal_rates Full.Params_default
           (Full.mkControllerParams (Full.diag3 0 0 100) (Full.diag3 0 0 20)
              180 600) 2
           (TrajectoryState.mk 2 [0; 0; 1] [0; 0; 0])
           (QuadrotorState.mk [0; 0; 0] Rot3.identity [0; 0; 0] [0; 0; 0])
           _ k_thrust_default_pos default_k_torque default_arm_length
           (thrust_command_diagonal Full.Params_default 0 0 100 0 0 20 180 600
              2 0 0 0 0 0 0 0 0 1 0 0 0 Rot3.identity [0; 0; 0])).
Defined.

(** X19.  With diagonal gains the controller is an altitude controller: the
    thrust command is [mass * (g + K_d[2][2] * (vzd - vz) + K_p[2][2] *
    (zd - z))], and the commands do not depend on the time, the horizontal
    position and velocity of state and reference, the orientation or the
    angular velocity. *)
Theorem controller_ignores_horizontal_error (p : Full.Params)
  (a b c a' b' c' rate_min rate_max t t' : R)
  (x y z vx vy vz xd yd zd vxd vyd vzd : R)
  (x' y' vx' vy' xd' yd' vxd' vyd' : R)
  (q q' : Rot3.t) (omega omega' : Np.array) :
  let cp := Full.mkControllerParams (Full.diag3 a b c) (Full.diag3 a' b' c')
              rate_min rate_max in
  Full.Controller.thrust_command p cp
    (TrajectoryState.mk t [xd; yd; zd] [vxd; vyd; vzd])
    (QuadrotorState.mk [x; y; z] q [vx; vy; vz] omega)
  = Ok (Full.mass p * (Full.g p + (c' * (vzd - vz) + c * (zd - z))))
  /\ Full.Controller.step p cp t
       (TrajectoryState.mk t [xd; yd; zd] [vxd; vyd; vzd])
       (QuadrotorState.mk [x; y; z] q [vx; vy; vz] omega)
     = Full.Controller.step p cp t'
         (TrajectoryState.mk t' [xd'; yd'; zd] [vxd'; vyd'; vzd])
         (QuadrotorState.mk [x'; y'; z] q' [vx'; vy'; vz] omega').
Proof.
  intros cp. unfold cp.
  split; [apply thrust_command_diagonal|].
  unfold Full.Controller.step. rewrite !thrust_command_diagonal. reflexivity.
Qed.

(** X20.  After the jump of the reference ([t >= 1]) the default controller
    saturates: a vehicle at or below the ground that does not climb faster
    than the reference velocity is commanded the maximum rate 600 on all
    four rotors. *)
Theorem jump_saturates_rotors (t x y z vx vy vz d0 d1 d2 : R) (q : Rot3.t)
  (omega : Np.array) :
  1 <= t -> z <= 0 -> vz <= d2 ->
  Full.Controller.step Full.Params_default Full.ControllerParams_default t
    (Full.JumpTrajectory.eval [d0; d1; d2] t)
    (QuadrotorState.mk [x; y; z] q [vx; vy; vz] omega)
  = Ok (QuadrotorCommands.mk [600; 600; 600; 600]).
Proof.
  intros Ht Hz Hv.
  pose proof (thrust_command_diagonal Full.Params_default
                0 0 100 0 0 20 180 600 t x y z vx vy vz 0 0 1.0 d0 d1 d2
                q omega) as Hu.
  unfold Full.Controller.step, Full.JumpTrajectory.eval.
  destruct (Rlt_dec t 1.0) as [H|_]; [exfalso; lra|].
  change (Full.mkControllerParams (Full.diag3 0 0 100) (Full.diag3 0 0 20)
            180 600)
    with Full.ControllerParams_default in Hu.
  rewrite Hu. cbn [bind].
  rewrite rotor_rates_from_u_value
    by first [exact k_thrust_default_pos | exact default_k_torque
             | exact default_arm_length].
  rewrite unmix_pure_thrust. cbn [bind map]. do 2 f_equal.
  cbn [Full.rotor_rate_min Full.rotor_rate_max Full.ControllerParams_default].
  rewrite rate_of_force_saturates;
    [reflexivity | exact k_thrust_default_pos | lra | lra | ].
  pose proof k_thrust_default_upper as Hk. pose proof k_thrust_default_pos.
  cbn [Full.mass Full.g Full.Params_default]. simpl in Hk. nra.
Qed.

Lemma jump_saturates_rotors_witness :
  1 <= 1 /\ 0 <= 0 /\ 0 <= 0
  /\ Full.Controller.step Full.Params_default Full.ControllerParams_default 1
       (Full.JumpTrajectory.eval [0; 0; 0] 1)
       (QuadrotorState.mk [0; 0; 0] Rot3.identity [0; 0; 0] [0; 0; 0])
     = Ok (QuadrotorCommands.mk [600; 600; 600; 600]).
Proof.
  assert (H1 : 1 <= 1) by lra.
  assert (H0 : 0 <= 0) by lra.
  split; [exact H1|]. split; [exact H0|]. split; [exact H0|].
  exact (jump_saturates_rotors 1 0 0 0 0 0 0 0 0 0 Rot3.identity [0; 0; 0]
           H1 H0 H0).
Defined.

(** X21.  Hover is an equilibrium of controller and dynamics with the
    default parameters: when the reference equals the state, level and not
    rotating, the controller commands the hover rate, the forward map turns
    it into the thrust [mass * g] and no torque, and the state derivative
    has zero velocity, orientation and angular rates. *)
Theorem hover_equilibrium (t x y z vx vy vz : R) :
  let state :=
    QuadrotorState.mk [x; y; z] Rot3.identity [vx; vy; vz] [0; 0; 0] in
  exists commands u1 u2 d,
    Full.Controller.step Full.Params_default Full.ControllerParams_default t
      (TrajectoryState.mk t [x; y; z] [vx; vy; vz]) state = Ok commands
    /\ Full.FullQuadrotorDynamics.actuation Full.Params_default
         (QuadrotorCommands.rotor_rates commands) = Ok (u1, u2)
    /\ u1 = Full.mass Full.Params_default * Full.g Full.Params_default
    /\ u2 = [[0]; [0]; [0]]
    /\ Full.FullQuadrotorDynamics.state_derivative Full.Params_default state
         u1 u2 = Ok d
    /\ QuadrotorState.position d = [vx; vy; vz]
    /\ QuadrotorState.velocity d = [0; 0; 0]
    /\ QuadrotorState.orientation d = Rot3.mk 0 0 0 0
    /\ QuadrotorState.angular_velocity d = [0; 0; 0].
Proof.
  intros state.
  assert (Hstep : Full.Controller.step Full.Params_default
                    Full.ControllerParams_default t
                    (TrajectoryState.mk t [x; y; z] [vx; vy; vz]) state
                  = Ok hover_commands).
  { unfold Full.Controller.step, Full.Controller.thrust_command,
      Full.Controller.commanded_acceleration, state.
    cbn [TrajectoryState.position TrajectoryState.velocity
         QuadrotorState.position QuadrotorState.velocity].
    rewrite !sub_self, !matvec_zeros.
    cbn [Full.K_p Full.K_d Full.ControllerParams_default Full.diag3 map Np.add
         Np.zip_with Np.getitem nth_error bind].
    rewrite rotor_rates_from_u_value
      by first [exact k_thrust_default_pos | exact default_k_torque
               | exact default_arm_length].
    rewrite unmix_pure_thrust. cbn [bind map]. unfold hover_commands.
    do 2 f_equal.
    cbn [Full.rotor_rate_min Full.rotor_rate_max Full.ControllerParams_default].
    list_eq; rewrite <- hover_rate_of_force; f_equal; unfold Rdiv; ring. }
  destruct (inv_ok _ (is_3x3_square _ default_inertia_3x3) default_inertia_det) as [I_inv HI].
  destruct (inv3_rows _ _ default_inertia_3x3 HI) as (r0 & r1 & r2 & HB).
  pose proof k_thrust_default_pos as Hkt.
  exists hover_commands.
  exists (Full.mass Full.Params_default * Full.g Full.Params_default).
  exists [[0]; [0]; [0]]. eexists.
  split; [exact Hstep|].
  split.
  { unfold hover_commands. cbn [QuadrotorCommands.rotor_rates].
    rewrite actuation_value by exact default_k_torque.
    rewrite hover_rate_sqr. unfold Spec.mix. f_equal. f_equal.
    - field. lra.
    - list_eq; ring. }
  split; [reflexivity|]. split; [reflexivity|].
  split.
  { unfold state. apply (state_derivative_value _ _ _ _ _ _ _ _ _ _ _ I_inv);
      [exact default_mass | exact default_inertia_3x3 | exact HI]. }
  cbn [QuadrotorState.position QuadrotorState.velocity
       QuadrotorState.orientation QuadrotorState.angular_velocity].
  split; [reflexivity|].
  split.
  { unfold Spec.velocity_rate, Spec.rotation_matrix, Rot3.identity, Np.add,
      Np.matvec, Np.dot.
    cbn [Rot3.x Rot3.y Rot3.z Rot3.w map Np.zip_with fold_right].
    list_eq; field; exact default_mass. }
  split.
  { unfold Spec.quaternion_rate. f_equal; field. }
  unfold Spec.angular_velocity_rate, Spec.cross3, Np.sub, Np.matvec.
  rewrite HB. cbn [map Np.zip_with nth Full.inertia Full.Params_default].
  match goal with
  | |- context [Np.dot r0 ?v] =>
      replace v with (map (fun _ : R => 0) [0; 0; 0])
        by (cbn [map]; unfold Np.dot; cbn [Np.zip_with fold_right];
            list_eq; ring)
  end.
  rewrite !dot_zeros. reflexivity.
Qed.

(** X22.  When no force of the inverse mixing leaves the range the rate
    limits allow, controller and dynamics are inverse to each other the
    other way round: the forward map of the rates [rotor_rates_from_u]
    returns gives back the commanded thrust and torque, and the inverse
    numpy computes is the closed form [mixing_inverse]. *)
Theorem commands_realised_when_unsaturated (p : Full.Params)
  (cp : Full.ControllerParams) (u1 u2x u2y u2z : R) :
  0 < Full.k_thrust p -> Full.k_torque p <> 0 -> Full.arm_length p <> 0 ->
  0 <= Full.rotor_rate_min cp <= Full.rotor_rate_max cp ->
  Forall (fun f => Full.k_thrust p
                   * (Full.rotor_rate_min cp * Full.rotor_rate_min cp)
                   <= f
                   <= Full.k_thrust p
                      * (Full.rotor_rate_max cp * Full.rotor_rate_max cp))
    (Np.matvec (mixing_inverse (Full.arm_length p)
                  (Full.k_thrust p / Full.k_torque p))
       [u1; u2x; u2y; u2z]) ->
  Np.inv (Full.Controller.mixing_matrix (Full.arm_length p)
            (Full.k_thrust p / Full.k_torque p))
  = Ok (mixing_inverse (Full.arm_length p) (Full.k_thrust p / Full.k_torque p))
  /\ exists rates,
      Full.Controller.rotor_rates_from_u p cp [u1; u2x; u2y; u2z] = Ok rates
      /\ Full.FullQuadrotorDynamics.actuation p rates
         = Ok (u1, [[u2x]; [u2y]; [u2z]]).
Proof.
  intros Hkt Hkq HL [Hlo Hb] Hf.
  pose proof (mixing_ratio_nonzero p Hkt Hkq) as Hk.
  split; [apply inv_mixing_matrix; assumption|].
  rewrite rotor_rates_from_u_value by assumption.
  remember (Np.matvec _ _) as forces eqn:Hforces.
  assert (Hshape : exists f1 f2 f3 f4, forces = [f1; f2; f3; f4]).
  { subst forces. unfold Np.matvec, mixing_inverse. cbn [map].
    do 4 eexists. reflexivity. }
  destruct Hshape as (f1 & f2 & f3 & f4 & Hfs). rewrite Hfs in *.
  eexists. split; [reflexivity|].
  repeat match goal with
         | H : Forall _ (_ :: _) |- _ => inversion H; subst; clear H
         end.
  cbn [map].
  repeat match goal with
         | H : _ <= ?f <= _ |- _ =>
             lazymatch goal with
             | _ : Spec.rate_of_force _ _ _ f = _ |- _ => fail
             | _ => destruct (rate_of_force_unsaturated (Full.k_thrust p)
                                (Full.rotor_rate_min cp)
                                (Full.rotor_rate_max cp)
                                f Hkt Hlo H Hb) as [? ?]
             end
         end.
  repeat match goal with
         | H : Spec.rate_of_force _ _ _ _ = _ |- _ => rewrite H; clear H
         end.
  rewrite actuation_value by assumption.
  repeat match goal with
         | H : Full.k_thrust p * (sqrt _ * sqrt _) = _ |- _ =>
             rewrite H; clear H
         end.
  f_equal. apply mix_unmix; try assumption. symmetry. assumption.
Qed.

Lemma commands_realised_when_unsaturated_witness :
  0 < Full.k_thrust Full.Params_default
  /\ Full.k_torque Full.Params_default <> 0
  /\ Full.arm_length Full.Params_default <> 0
  /\ 0 <= Full.rotor_rate_min Full.ControllerParams_default
     <= Full.rotor_rate_max Full.ControllerParams_default
  /\ Np.inv (Full.Controller.mixing_matrix
               (Full.arm_length Full.Params_default)
               (Full.k_thrust Full.Params_default
                / Full.k_torque Full.Params_default))
     = Ok (mixing_inverse (Full.arm_length Full.Params_default)
             (Full.k_thrust Full.Params_default
              / Full.k_torque Full.Params_default))
  /\ exists rates,
      Full.Controller.rotor_rates_from_u Full.Params_default
        Full.ControllerParams_default
        [4 * Full.k_thrust Full.Params_default * (300 * 300); 0; 0; 0]
      = Ok rates
      /\ Full.FullQuadrotorDynamics.actuation Full.Params_default rates
         = Ok (4 * Full.k_thrust Full.Params_default * (300 * 300),
               [[0]; [0]; [0]]).
Proof.
  split; [exact k_thrust_default_pos|].
  split; [exact default_k_torque|].
  split; [exact default_arm_length|].
  split; [exact default_rate_bounds_nonneg|].
  exact (commands_realised_when_unsaturated Full.Params_default
           Full.ControllerParams_default
           (4 * Full.k_thrust Full.Params_default * (300 * 300)) 0 0 0
           k_thrust_default_pos default_k_torque default_arm_length
           default_rate_bounds_nonneg default_unsaturated_forces).
Defined.

(** X23.  Whatever is commanded, the thrust the dynamics realise from the
    limited rates lies between [4 k_thrust rotor_rate_min^2] and
    [4 k_thrust rotor_rate_max^2]. *)
Theorem realised_thrust_bounded (p : Full.Params) (cp : Full.ControllerParams)
  (u1 u2x u2y u2z : R) :
  0 < Full.k_thrust p -> Full.k_torque p <> 0 -> Full.arm_length p <> 0 ->
  0 <= Full.rotor_rate_min cp <= Full.rotor_rate_max cp ->
  exists rates thrust torque,
    Full.Controller.rotor_rates_from_u p cp [u1; u2x; u2y; u2z] = Ok rates
    /\ Full.FullQuadrotorDynamics.actuation p rates = Ok (thrust, torque)
    /\ 4 * Full.k_thrust p * (Full.rotor_rate_min cp * Full.rotor_rate_min cp)
       <= thrust
       <= 4 * Full.k_thrust p
          * (Full.rotor_rate_max cp * Full.rotor_rate_max cp).
Proof.
  intros Hkt Hkq HL [Hlo Hb].
  do 3 eexists.
  split; [apply rotor_rates_from_u_value; assumption|].
  unfold Np.matvec, mixing_inverse. cbn [map].
  split; [apply actuation_value; assumption|].
  set (lo := Full.rotor_rate_min cp) in *.
  set (hi := Full.rotor_rate_max cp) in *.
  set (kt := Full.k_thrust p) in *.
  assert (Hsq : forall f, lo * lo <= Spec.rate_of_force kt lo hi f
                                     * Spec.rate_of_force kt lo hi f
                          <= hi * hi).
  { intros f. pose proof (clamp_bounds lo hi (sqrt (Rmax f 0 / kt)) Hb) as Hc.
    unfold Spec.rate_of_force. nra. }
  match goal with
  | |- _ <= kt * (?a * ?a) + kt * (?b * ?b) + kt * (?c * ?c)
            + kt * (?d * ?d) <= _ =>
      pose proof (Hsq ltac:(match a with
                            | Spec.rate_of_force _ _ _ ?f => exact f end));
      pose proof (Hsq ltac:(match b with
                            | Spec.rate_of_force _ _ _ ?f => exact f end));
      pose proof (Hsq ltac:(match c with
                            | Spec.rate_of_force _ _ _ ?f => exact f end));
      pose proof (Hsq ltac:(match d with
                            | Spec.rate_of_force _ _ _ ?f => exact f end))
  end.
  split; nra.
Qed.

Lemma realised_thrust_bounded_witness :
  0 < Full.k_thrust Full.Params_default
  /\ Full.k_torque Full.Params_default <> 0
  /\ Full.arm_length Full.Params_default <> 0
  /\ 0 <= Full.rotor_rate_min Full.ControllerParams_default
     <= Full.rotor_rate_max Full.ControllerParams_default
  /\ exists rates thrust torque,
      Full.Controller.rotor_rates_from_u Full.Params_default
        Full.ControllerParams_default [1000; 5; -5; 1] = Ok rates
      /\ Full.FullQuadrotorDynamics.actuation Full.Params_default rates
         = Ok (thrust, torque)
      /\ 4 * Full.k_thrust Full.Params_default
         * (Full.rotor_rate_min Full.ControllerParams_default
            * Full.rotor_rate_min Full.ControllerParams_default)
         <= thrust
         <= 4 * Full.k_thrust Full.Params_default
            * (Full.rotor_rate_max Full.ControllerParams_default
               * Full.rotor_rate_max Full.ControllerParams_default).
Proof.
  split; [exact k_thrust_default_pos|].
  split; [exact default_k_torque|].
  split; [exact default_arm_length|].
  split; [exact default_rate_bounds_nonneg|].
  exact (realised_thrust_bounded Full.Params_default
           Full.ControllerParams_default 1000 5 (-5) 1
           k_thrust_default_pos default_k_torque default_arm_length
           default_rate_bounds_nonneg).
Defined.

(** ** A zero thrust coefficient *)

Lemma Params_no_thrust_k_torque : Full.k_torque Params_no_thrust <> 0.
Proof.
  assert (0 < Full.k_torque Params_no_thrust)
    by (apply rotor_model_pos; cbn; lra).
  lra.
Qed.

(** X24.  A zero static thrust coefficient is treated differently by the
    two sides: the forward map of the dynamics returns zero thrust and zero
    torque for all rotor rates, while [rotor_rates_from_u] raises
    [LinAlgError] for every command, because the last row of its mixing
    matrix is zero. *)
Theorem zero_thrust_coefficient (p : Full.Params) (cp : Full.ControllerParams)
  (r1 r2 r3 r4 : R) (u : Np.array) :
  Full.static_thrust_coefficient p = 0 -> Full.k_torque p <> 0 ->
  Full.FullQuadrotorDynamics.actuation p [r1; r2; r3; r4]
  = Ok (0, [[0]; [0]; [0]])
  /\ Full.Controller.rotor_rates_from_u p cp u = Raised LinAlgError.
Proof.
  intros Hc Hkq.
  assert (Hkt : Full.k_thrust p = 0).
  { unfold Full.k_thrust. rewrite Hc. apply rotor_model_zero_coefficient. }
  split.
  - rewrite actuation_value by assumption. rewrite Hkt.
    unfold Spec.mix. f_equal. f_equal; [ring|]. list_eq; field; assumption.
  - unfold Full.Controller.rotor_rates_from_u.
    rewrite py_div_ok by assumption. cbn [bind].
    rewrite inv_singular; [reflexivity|].
    rewrite det_mixing_matrix, Hkt. field. assumption.
Qed.

Lemma zero_thrust_coefficient_witness :
  Full.static_thrust_coefficient Params_no_thrust = 0
  /\ Full.k_torque Params_no_thrust <> 0
  /\ Full.FullQuadrotorDynamics.actuation Params_no_thrust [400; 300; 200; 100]
     = Ok (0, [[0]; [0]; [0]])
  /\ Full.Controller.rotor_rates_from_u Params_no_thrust
       Full.ControllerParams_default [13; 0; 0; 0]
     = Raised LinAlgError.
Proof.
  assert (H : Full.static_thrust_coefficient Params_no_thrust = 0)
    by reflexivity.
  split; [exact H|].
  split; [exact Params_no_thrust_k_torque|].
  exact (zero_thrust_coefficient Params_no_thrust Full.ControllerParams_default
           400 300 200 100 [13; 0; 0; 0] H Params_no_thrust_k_torque).
Defined.
